(** * sqlpipe credential store: a shallow embedding of [internal/data/users.go]

    The development follows the Go source function by function.  The etcd
    client is modelled as an explicit key-value state with revisions and a
    schedule of transport faults; every [UserModel] method is a computation
    in a small state-and-error monad over that client.  Go runtime panics
    (the explicit [panic] of [InsertCheckToken], index errors) are a third
    outcome next to values and errors. *)

From Stdlib Require Import ZArith String Ascii List Lia Bool.
From Stdlib Require OrderedTypeEx.
From stdpp Require Import base option list strings gmap sorting.

Local Open Scope string_scope.
Local Open Scope Z_scope.

(** ** Go values, errors and outcomes *)

(** The error values the package returns.  [ErrDuplicateUsername] and
    [ErrInvalidCredentials] are declared in users.go; [ErrRecordNotFound] is
    the package-level sentinel both source files return.  The remaining
    constructors stand for the errors of strconv, encoding/json and the etcd
    client. *)
Inductive error : Type :=
| ErrDuplicateUsername
| ErrInvalidCredentials
| ErrRecordNotFound
| ErrSyntax (fn s : string)
| ErrRange (fn s : string)
| ErrJSON (msg : string)
| ErrEtcd (msg : string).

Inductive outcome (A : Type) : Type :=
| Ok (a : A)
| Err (e : error)
| Panic (msg : string).

Arguments Ok {A} a.
Arguments Err {A} e.
Arguments Panic {A} msg.

(** ** strconv *)

Module strconv.

Definition is_digit (c : ascii) : bool :=
  (48 <=? Z.of_N (N_of_ascii c)) && (Z.of_N (N_of_ascii c) <=? 57).

Definition digit_val (c : ascii) : Z := Z.of_N (N_of_ascii c) - 48.

Definition maxUint64 : Z := 2 ^ 64 - 1.

(** The digit loop of [ParseUint] for base 10 and bitSize 64: [n] is the
    accumulator, [s0] the whole input (kept for the error value). *)
Fixpoint ParseUint_loop (s0 : string) (n : Z) (s : string) : outcome Z :=
  match s with
  | EmptyString => Ok n
  | String c rest =>
      if negb (is_digit c) then Err (ErrSyntax "ParseUint" s0)
      else if maxUint64 / 10 + 1 <=? n then Err (ErrRange "ParseUint" s0)
      else
        let n1 := n * 10 + digit_val c in
        if maxUint64 <? n1 then Err (ErrRange "ParseUint" s0)
        else ParseUint_loop s0 n1 rest
  end.

Definition ParseUint (s : string) : outcome Z :=
  match s with
  | EmptyString => Err (ErrSyntax "ParseUint" s)
  | _ => ParseUint_loop s 0 s
  end.

(** [strconv.ParseInt(s, 10, 64)]. *)
Definition ParseInt (s0 : string) : outcome Z :=
  match s0 with
  | EmptyString => Err (ErrSyntax "ParseInt" s0)
  | String c rest =>
      let neg := Ascii.eqb c "-" in
      let s := if Ascii.eqb c "+" || neg then rest else s0 in
      match ParseUint s with
      | Err (ErrSyntax _ _) => Err (ErrSyntax "ParseInt" s0)
      | Err (ErrRange _ _) => Err (ErrRange "ParseInt" s0)
      | Err e => Err e
      | Panic m => Panic m
      | Ok un =>
          let cutoff := 2 ^ 63 in
          if negb neg && (cutoff <=? un) then Err (ErrRange "ParseInt" s0)
          else if neg && (cutoff <? un) then Err (ErrRange "ParseInt" s0)
          else Ok (if neg then - un else un)
      end
  end.

(** [strconv.ParseBool]. *)
Definition ParseBool (str : string) : outcome bool :=
  if existsb (String.eqb str) ["1"; "t"; "T"; "TRUE"; "true"; "True"]
  then Ok true
  else if existsb (String.eqb str) ["0"; "f"; "F"; "FALSE"; "false"; "False"]
  then Ok false
  else Err (ErrSyntax "ParseBool" str).

Definition digit_char (d : Z) : ascii := ascii_of_N (Z.to_N (48 + d)).

(** Decimal digits of a non-negative number, least significant digit
    produced first, as [formatBits] does. *)
Fixpoint FormatUint_loop (fuel : nat) (n : Z) (acc : string) : string :=
  match fuel with
  | O => acc
  | S fuel' =>
      let acc' := String (digit_char (n mod 10)) acc in
      if n <? 10 then acc' else FormatUint_loop fuel' (n / 10) acc'
  end.

Definition FormatUint (n : Z) : string :=
  FormatUint_loop (S (Z.to_nat (Z.log2 n))) n "".

(** [strconv.FormatInt(i, 10)], which is what [fmt.Sprint] prints for an
    int64. *)
Definition FormatInt (i : Z) : string :=
  if i <? 0 then String "-" (FormatUint (- i)) else FormatUint i.

End strconv.

(** ** fmt *)

Module fmt.

Definition Sprint_int64 (i : Z) : string := strconv.FormatInt i.

Definition Sprint_bool (b : bool) : string := if b then "true" else "false".

Definition hex_digit_upper (d : Z) : ascii :=
  if d <? 10 then ascii_of_N (Z.to_N (48 + d)) else ascii_of_N (Z.to_N (55 + d)).

(** [fmt.Sprintf("%X", b)] for a byte array: two upper-case hexadecimal
    digits per byte. *)
Fixpoint Sprintf_X (bs : list Z) : string :=
  match bs with
  | [] => ""
  | b :: rest =>
      String (hex_digit_upper (b / 16))
        (String (hex_digit_upper (b mod 16)) (Sprintf_X rest))
  end.

End fmt.

(** ** strings *)

Module strings.

Definition HasPrefix (s pre : string) : bool := String.prefix pre s.

Fixpoint drop (n : nat) (s : string) : string :=
  match n, s with
  | O, _ => s
  | S n', String _ s' => drop n' s'
  | S _, EmptyString => EmptyString
  end.

Definition TrimPrefix (s pre : string) : string :=
  if HasPrefix s pre then drop (String.length pre) s else s.

(** [strings.Index]: offset of the first occurrence, [None] for -1. *)
Definition Index (s substr : string) : option nat := String.index 0 substr s.

Definition Contains (s substr : string) : bool :=
  match Index s substr with Some _ => true | None => false end.

(** [strings.Split] for a non-empty separator: cut at each occurrence,
    left to right.  The fuel bounds the number of separators. *)
Fixpoint Split_loop (fuel : nat) (s sep : string) : list string :=
  match fuel with
  | O => [s]
  | S fuel' =>
      match Index s sep with
      | None => [s]
      | Some m =>
          String.substring 0 m s
            :: Split_loop fuel' (drop (m + String.length sep) s) sep
      end
  end.

Definition Split (s sep : string) : list string :=
  Split_loop (String.length s) s sep.

End strings.

(** ** Byte strings *)

(** Go strings and [[]byte] values are byte sequences; a Rocq [string] is a
    sequence of 8-bit characters, so conversions between the two Go types
    are the identity here. *)
Definition bytes_of_string (s : string) : list Z :=
  map (fun c => Z.of_N (N_of_ascii c)) (list_ascii_of_string s).

(** ** crypto/sha256 *)

Module sha256.

Definition mask32 : Z := 0xFFFFFFFF.

Definition add32 (x y : Z) : Z := (x + y) mod 2 ^ 32.

Definition rotr (n x : Z) : Z :=
  Z.lor (Z.shiftr x n) (Z.land (Z.shiftl x (32 - n)) mask32).

Definition Ch (x y z : Z) : Z :=
  Z.lxor (Z.land x y) (Z.land (Z.lxor x mask32) z).

Definition Maj (x y z : Z) : Z :=
  Z.lxor (Z.lxor (Z.land x y) (Z.land x z)) (Z.land y z).

Definition Sigma0 (x : Z) : Z := Z.lxor (Z.lxor (rotr 2 x) (rotr 13 x)) (rotr 22 x).
Definition Sigma1 (x : Z) : Z := Z.lxor (Z.lxor (rotr 6 x) (rotr 11 x)) (rotr 25 x).
Definition sigma0 (x : Z) : Z := Z.lxor (Z.lxor (rotr 7 x) (rotr 18 x)) (Z.shiftr x 3).
Definition sigma1 (x : Z) : Z := Z.lxor (Z.lxor (rotr 17 x) (rotr 19 x)) (Z.shiftr x 10).

(** The largest [r] below [2 ^ bits] above the start value with
    [r ^ 3 <= n], one bit at a time. *)
Fixpoint cube_root (bits : nat) (n r : Z) : Z :=
  match bits with
  | O => r
  | S bits' =>
      let r' := r + 2 ^ Z.of_nat bits' in
      if r' ^ 3 <=? n then cube_root bits' n r' else cube_root bits' n r
  end.

Definition is_prime (p : Z) : bool :=
  (2 <=? p) && forallb (fun d => negb (p mod d =? 0))
                       (map Z.of_nat (seq 2 (Z.to_nat (Z.sqrt p) - 1))).

(** The primes the constants are drawn from: the first 64. *)
Definition primes : list Z := filter is_prime (map Z.of_nat (seq 2 310)).

(** The round constants: the first 32 bits of the fractional parts of the
    cube roots of the first 64 primes. *)
Definition _K : list Z :=
  Eval vm_compute in map (fun p => cube_root 36 (p * 2 ^ 96) 0 mod 2 ^ 32) primes.

(** The initial hash value: the first 32 bits of the fractional parts of the
    square roots of the first 8 primes. *)
Definition init : list Z :=
  Eval vm_compute in map (fun p => Z.sqrt (p * 2 ^ 64) mod 2 ^ 32) (firstn 8 primes).

(** Big-endian bytes of [x], [n] of them. *)
Fixpoint be_bytes (n : nat) (x : Z) : list Z :=
  match n with
  | O => []
  | S n' => (Z.shiftr x (8 * Z.of_nat n')) mod 256 :: be_bytes n' x
  end.

Fixpoint be_word (bs : list Z) (acc : Z) : Z :=
  match bs with
  | [] => acc
  | b :: rest => be_word rest (acc * 256 + b)
  end.

(** The message followed by 0x80, zero bytes up to 56 modulo 64, and the
    bit length on eight bytes. *)
Definition pad (msg : list Z) : list Z :=
  let len := Z.of_nat (List.length msg) in
  let zeros := Z.to_nat ((55 - len) mod 64) in
  msg ++ [0x80] ++ repeat 0 zeros ++ be_bytes 8 (8 * len).

Fixpoint words (fuel : nat) (bs : list Z) : list Z :=
  match fuel with
  | O => []
  | S fuel' =>
      match bs with
      | [] => []
      | _ => be_word (firstn 4 bs) 0 :: words fuel' (skipn 4 bs)
      end
  end.

(** The message schedule: [w] holds W_0 .. W_(t-1). *)
Fixpoint schedule (fuel : nat) (w : list Z) : list Z :=
  match fuel with
  | O => w
  | S fuel' =>
      let t := List.length w in
      let at_ (i : nat) := nth (t - i)%nat w 0 in
      schedule fuel'
        (w ++ [add32 (add32 (sigma1 (at_ 2%nat)) (at_ 7%nat))
                     (add32 (sigma0 (at_ 15%nat)) (at_ 16%nat))])
  end.

Record regs : Type := Regs { ra : Z; rb : Z; rc : Z; rd : Z; re : Z; rf : Z; rg : Z; rh : Z }.

Definition round (r : regs) (kw : Z * Z) : regs :=
  let t1 := add32 (add32 (add32 (rh r) (Sigma1 (re r)))
                         (add32 (Ch (re r) (rf r) (rg r)) (fst kw))) (snd kw) in
  let t2 := add32 (Sigma0 (ra r)) (Maj (ra r) (rb r) (rc r)) in
  Regs (add32 t1 t2) (ra r) (rb r) (rc r) (add32 (rd r) t1) (re r) (rf r) (rg r).

Definition regs_of (h : list Z) : regs :=
  Regs (nth 0 h 0) (nth 1 h 0) (nth 2 h 0) (nth 3 h 0)
       (nth 4 h 0) (nth 5 h 0) (nth 6 h 0) (nth 7 h 0).

Definition list_of (r : regs) : list Z :=
  [ra r; rb r; rc r; rd r; re r; rf r; rg r; rh r].

Definition block (h : list Z) (chunk : list Z) : list Z :=
  let w := schedule 48 (words 16 chunk) in
  let r := fold_left round (combine _K w) (regs_of h) in
  map (fun p => add32 (fst p) (snd p)) (combine h (list_of r)).

Fixpoint blocks (fuel : nat) (h : list Z) (bs : list Z) : list Z :=
  match fuel with
  | O => h
  | S fuel' =>
      match bs with
      | [] => h
      | _ => blocks fuel' (block h (firstn 64 bs)) (skipn 64 bs)
      end
  end.

(** [sha256.Sum256]: the 32 bytes of the digest. *)
Definition Sum256 (data : list Z) : list Z :=
  let p := pad data in
  flat_map (be_bytes 4) (blocks (List.length p) init p).

End sha256.

(** ** encoding/base64 *)

Module base64.

Definition alphabet : string :=
  "ABCDEFGHIJKLMNOPQRSTUVWXYZabcdefghijklmnopqrstuvwxyz0123456789+/".

Definition enc (i : Z) : ascii :=
  match String.get (Z.to_nat i) alphabet with
  | Some c => c
  | None => "="%char
  end.

(** [base64.StdEncoding.EncodeToString]. *)
Fixpoint EncodeToString (src : list Z) : string :=
  match src with
  | [] => ""
  | [b0] =>
      String (enc (b0 / 4))
        (String (enc ((b0 mod 4) * 16)) "==")
  | [b0; b1] =>
      String (enc (b0 / 4))
        (String (enc ((b0 mod 4) * 16 + b1 / 16))
           (String (enc ((b1 mod 16) * 4)) "="))
  | b0 :: b1 :: b2 :: rest =>
      String (enc (b0 / 4))
        (String (enc ((b0 mod 4) * 16 + b1 / 16))
           (String (enc ((b1 mod 16) * 4 + b2 / 64))
              (String (enc (b2 mod 64)) (EncodeToString rest))))
  end.

End base64.

(** ** The etcd client *)

Module clientv3.

(** What the store keeps under a key. *)
Record entry : Type := Entry {
  e_value : string;
  e_create : positive;
  e_mod : positive;
  e_version : positive
}.

(** [mvccpb.KeyValue], as returned in responses. *)
Record KeyValue : Type := MkKeyValue {
  Key : string;
  Value : string;
  CreateRevision : Z;
  ModRevision : Z;
  Version : Z
}.

(** How a call can fail on the way.  The caller sees the error [e] in both
    cases and cannot tell them apart: the request was lost before the
    store saw it, or the store applied it and the reply was lost (a
    deadline that passes while the answer is on its way). *)
Inductive fault : Type :=
| Dropped (e : error)
| ReplyLost (e : error).

Definition fault_error (f : fault) : error :=
  match f with
  | Dropped e => e
  | ReplyLost e => e
  end.

(** The client handle together with the cluster it talks to: the current
    revision, the key space, and the outcome of the coming calls ([Some f]:
    the call fails as [f] says; [None]: it goes through; an exhausted
    schedule means the calls go through). *)
Record Client : Type := MkClient {
  revision : positive;
  keyspace : gmap string entry;
  faults : list (option fault)
}.

Inductive CompareResult : Type := EQUAL | NOT_EQUAL | GREATER | LESS.

(** [clientv3.Compare(clientv3.CreateRevision(key), op, n)] and
    [clientv3.Compare(clientv3.Value(key), op, s)]. *)
Inductive Cmp : Type :=
| CompareCreateRevision (key : string) (op : CompareResult) (n : Z)
| CompareValue (key : string) (op : CompareResult) (v : string).

Inductive Op : Type :=
| OpPut (key val : string)
| OpGet (key : string) (withPrefix : bool)
| OpDelete (key : string) (withPrefix : bool).

Record RangeResponse : Type := MkRangeResponse {
  Kvs : list KeyValue;
  Count : Z
}.

Inductive ResponseOp : Type :=
| ResponseRange (r : RangeResponse)
| ResponsePut
| ResponseDeleteRange (deleted : Z).

Record TxnResponse : Type := MkTxnResponse {
  Succeeded : bool;
  Responses : list ResponseOp
}.

Definition kv_of (k : string) (e : entry) : KeyValue :=
  MkKeyValue k (e_value e) (Zpos (e_create e)) (Zpos (e_mod e)) (Zpos (e_version e)).

Definition key_le (a b : KeyValue) : Prop := String.leb (Key a) (Key b) = true.

#[global] Instance key_le_dec (a b : KeyValue) : Decision (key_le a b).
Proof. unfold key_le. apply _. Defined.

Definition in_range (key : string) (withPrefix : bool) (k : string) : bool :=
  if withPrefix then String.prefix key k else String.eqb key k.

(** A range read: the selected keys in ascending key order. *)
Definition range (ks : gmap string entry) (key : string) (withPrefix : bool)
  : RangeResponse :=
  let sel := filter (fun p : string * entry => in_range key withPrefix (fst p) = true) ks in
  let kvs := merge_sort key_le (map (fun p => kv_of (fst p) (snd p)) (map_to_list sel)) in
  MkRangeResponse kvs (Z.of_nat (List.length kvs)).

Definition put (ks : gmap string entry) (r : positive) (key val : string)
  : gmap string entry :=
  match ks !! key with
  | Some e => <[key := Entry val (e_create e) r (Pos.succ (e_version e))]> ks
  | None => <[key := Entry val r r 1%positive]> ks
  end.

Definition delete_range (ks : gmap string entry) (key : string) (withPrefix : bool)
  : gmap string entry :=
  filter (fun p : string * entry => in_range key withPrefix (fst p) = false) ks.

Definition compare_result (op : CompareResult) (c : comparison) : bool :=
  match op, c with
  | EQUAL, Eq => true
  | NOT_EQUAL, Eq => false
  | NOT_EQUAL, _ => true
  | GREATER, Gt => true
  | LESS, Lt => true
  | _, _ => false
  end.

(** The server side of a comparison.  A missing key has create revision
    0, and a value comparison on a missing key fails whatever the
    operator; values compare as byte strings. *)
Definition eval_cmp (ks : gmap string entry) (c : Cmp) : bool :=
  match c with
  | CompareCreateRevision key op n =>
      let actual := match ks !! key with Some e => Zpos (e_create e) | None => 0 end in
      compare_result op (Z.compare actual n)
  | CompareValue key op v =>
      match ks !! key with
      | Some e => compare_result op (String.compare (e_value e) v)
      | None => false
      end
  end.

(** One operation of a transaction branch, at write revision [r]. *)
Definition apply_op (r : positive) (ks : gmap string entry) (o : Op)
  : gmap string entry * ResponseOp :=
  match o with
  | OpPut key val => (put ks r key val, ResponsePut)
  | OpGet key pre => (ks, ResponseRange (range ks key pre))
  | OpDelete key pre =>
      (delete_range ks key pre, ResponseDeleteRange (Count (range ks key pre)))
  end.

Fixpoint apply_ops (r : positive) (ks : gmap string entry) (os : list Op)
  : gmap string entry * list ResponseOp :=
  match os with
  | [] => (ks, [])
  | o :: rest =>
      let '(ks1, resp) := apply_op r ks o in
      let '(ks2, resps) := apply_ops r ks1 rest in
      (ks2, resp :: resps)
  end.

Definition writes (rs : list ResponseOp) : bool :=
  existsb (fun r => match r with
                    | ResponsePut => true
                    | ResponseDeleteRange n => 0 <? n
                    | ResponseRange _ => false
                    end) rs.

End clientv3.

Import clientv3.

(** ** Computations against the client *)

Definition M (A : Type) : Type := Client -> outcome A * Client.

Definition ret {A} (a : A) : M A := fun c => (Ok a, c).

Definition fail {A} (e : error) : M A := fun c => (Err e, c).

Definition panic {A} (msg : string) : M A := fun c => (Panic msg, c).

Definition bind {A B} (m : M A) (k : A -> M B) : M B :=
  fun c =>
    match m c with
    | (Ok a, c') => k a c'
    | (Err e, c') => (Err e, c')
    | (Panic msg, c') => (Panic msg, c')
    end.

(** Lifting of a pure fallible step ([strconv], [json]). *)
Definition lift {A} (o : outcome A) : M A := fun c => (o, c).

Declare Scope go_scope.
Delimit Scope go_scope with go.
Notation "x <- m ;; k" := (bind m (fun x => k))
  (at level 100, m at next level, right associativity) : go_scope.
Notation "m ;;; k" := (bind m (fun _ => k))
  (at level 100, right associativity) : go_scope.

Module context.

(** A [context.Context] as the call that receives it finds it: still
    live, or already done, in which case [ctx.Err()] is [e] (cancelled by
    the caller, or past its deadline).  A context that expires while the
    call is under way is a fault of the transport. *)
Inductive Context : Type :=
| Live
| Done (e : error).

End context.

Module Etcd.

(** Every call first meets the transport: the head of the fault schedule
    decides whether the request reaches the store and whether its answer
    reaches the caller.  A request whose reply is lost has been applied. *)
Definition transport {A} (run : Client -> A * Client) : M A :=
  fun c =>
    match faults c with
    | Some (Dropped e) :: rest => (Err e, MkClient (revision c) (keyspace c) rest)
    | Some (ReplyLost e) :: rest =>
        let '(_, c') := run (MkClient (revision c) (keyspace c) rest) in (Err e, c')
    | None :: rest =>
        let '(a, c') := run (MkClient (revision c) (keyspace c) rest) in (Ok a, c')
    | [] => let '(a, c') := run c in (Ok a, c')
    end.

(** A call made under a context handed in by the caller: when that context
    is already done the client answers with its error and sends nothing. *)
Definition under {A} (ctx : context.Context) (call : M A) : M A :=
  match ctx with
  | context.Live => call
  | context.Done e => fail e
  end.

Definition commit (c : Client) (ks : gmap string entry) (rs : list ResponseOp) : Client :=
  MkClient (if writes rs then Pos.succ (revision c) else revision c) ks (faults c).

(** [m.Etcd.Get(ctx, key, opts...)]. *)
Definition Get (key : string) (withPrefix : bool) : M RangeResponse :=
  transport (fun c => (range (keyspace c) key withPrefix, c)).

(** [m.Etcd.Put(ctx, key, val)]. *)
Definition Put (key val : string) : M unit :=
  transport (fun c =>
    let '(ks, rs) := apply_ops (Pos.succ (revision c)) (keyspace c) [OpPut key val] in
    (tt, commit c ks rs)).

(** [m.Etcd.Delete(ctx, key, opts...)]. *)
Definition Delete (key : string) (withPrefix : bool) : M unit :=
  transport (fun c =>
    let '(ks, rs) := apply_ops (Pos.succ (revision c)) (keyspace c) [OpDelete key withPrefix] in
    (tt, commit c ks rs)).

(** [m.Etcd.Txn(ctx).If(cmps...).Then(thenOps...).Else(elseOps...).Commit()]:
    all comparisons are evaluated on one state, and the chosen branch is
    applied to that same state at a single revision. *)
Definition Txn (cmps : list Cmp) (thenOps elseOps : list Op) : M TxnResponse :=
  transport (fun c =>
    let ok := forallb (eval_cmp (keyspace c)) cmps in
    let '(ks, rs) :=
      apply_ops (Pos.succ (revision c)) (keyspace c) (if ok then thenOps else elseOps) in
    (MkTxnResponse ok rs, commit c ks rs)).

End Etcd.

(** Go's indexing and pointer dereferences, with their runtime panics. *)
Definition index {A} (l : list A) (i : nat) : outcome A :=
  match nth_error l i with
  | Some a => Ok a
  | None => Panic "runtime error: index out of range"
  end.

(** [op.GetResponseRange()] followed by a field access: the getter returns
    nil for a response of another kind, and the access then panics. *)
Definition GetResponseRange (r : ResponseOp) : outcome RangeResponse :=
  match r with
  | ResponseRange rr => Ok rr
  | _ => Panic "runtime error: invalid memory address or nil pointer dereference"
  end.

(** ** internal/globals: the key-path builder *)

Module globals.

(** Modelled from the spec: the key-path builder of internal/globals is
    called by users.go but its file is not among the sources.  The spec
    (4.1, and the persisted layout of section 6) asks for an account key
    per username and, under it as a common prefix, the admin-flag key, the
    password-hash key and one key per hashed token.  The concrete segment
    names are the ones users.go itself uses: the scan prefix
    "sqlpipe/data/users" of [GetAll], the "%v/tokens" of
    [GetUserCheckToken], and the case labels "admin" and "hashed_password"
    of [GetUserWithPassword]. *)
Definition GetUserPath (username : string) : string :=
  "sqlpipe/data/users/" +:+ username.

(** Modelled from the spec: the admin-flag key, under the account key. *)
Definition GetUserAdminPath (username : string) : string :=
  GetUserPath username +:+ "/admin".

(** Modelled from the spec: the password-hash key, under the account key. *)
Definition GetUserHashedPasswordPath (username : string) : string :=
  GetUserPath username +:+ "/hashed_password".

(** Modelled from the spec: the key of one session token, named by the
    hash of its bearer value, under the account key. *)
Definition GetUserTokenPath (username hashedToken : string) : string :=
  GetUserPath username +:+ "/tokens/" +:+ hashedToken.

End globals.

(** ** The records of users.go *)

(** [BcryptedPassword] is a [[]byte]: [None] is the nil slice. *)
Record User : Type := MkUser {
  Username : string;
  PlaintextPassword : string;
  BcryptedPassword : option string;
  AuthToken : string;
  Admin : bool
}.

Record ScrubbedUser : Type := MkScrubbedUser {
  Scrubbed_Username : string;
  Scrubbed_Admin : bool
}.

Definition User_zero : User := MkUser "" "" None "" false.

Definition ScrubbedUser_zero : ScrubbedUser := MkScrubbedUser "" false.

Definition Scrub (user : User) : ScrubbedUser :=
  MkScrubbedUser (Username user) (Admin user).

Definition set_Username (user : User) (v : string) : User :=
  MkUser v (PlaintextPassword user) (BcryptedPassword user) (AuthToken user) (Admin user).

Definition set_PlaintextPassword (user : User) (v : string) : User :=
  MkUser (Username user) v (BcryptedPassword user) (AuthToken user) (Admin user).

Definition set_BcryptedPassword (user : User) (v : option string) : User :=
  MkUser (Username user) (PlaintextPassword user) v (AuthToken user) (Admin user).

Definition set_AuthToken (user : User) (v : string) : User :=
  MkUser (Username user) (PlaintextPassword user) (BcryptedPassword user) v (Admin user).

Definition set_Admin (user : User) (v : bool) : User :=
  MkUser (Username user) (PlaintextPassword user) (BcryptedPassword user) (AuthToken user) v.

(** The token record is declared in another file of the package; users.go
    reads its [ExpiryUnixTime] field, a string, and nothing else. *)
Record Token : Type := MkToken {
  ExpiryUnixTime : string
}.

(** [[]byte(b)] for hashing: the nil slice has no bytes. *)
Definition bytes_of_slice (b : option string) : list Z :=
  match b with
  | Some s => bytes_of_string s
  | None => []
  end.

(** ** encoding/json *)

(** The decoder is an interface of the development: [Unmarshal_T data] is
    [json.Unmarshal(data, &v)] for a zero-valued [v] of type [T], and
    [Marshal_string] is the encoder's string literal for a Go string. *)
Class JSON : Type := {
  Unmarshal_User : string -> outcome User;
  Unmarshal_ScrubbedUser : string -> outcome ScrubbedUser;
  Unmarshal_Token : string -> outcome Token;
  Marshal_string : string -> string
}.

(** What the decoder of encoding/json answers on empty input. *)
Definition unexpected_end : error := ErrJSON "unexpected end of JSON input".

Definition rejects_empty (J : JSON) : Prop :=
  Unmarshal_User "" = Err unexpected_end /\
  Unmarshal_ScrubbedUser "" = Err unexpected_end /\
  Unmarshal_Token "" = Err unexpected_end.

Module json.

Inductive value : Type :=
| VString (s : string)
| VBytes (b : option string)
| VBool (b : bool).

(** A struct field as reflection sees it: its Go name, its [json] tag
    when it has one, and its value. *)
Record field : Type := MkField {
  f_name : string;
  f_tag : option string;
  f_value : value
}.

(** The part of a tag before its first comma. *)
Fixpoint tag_name (tag : string) : string :=
  match tag with
  | EmptyString => ""
  | String c rest => if Ascii.eqb c "," then "" else String c (tag_name rest)
  end.

(** The object key of a field: none for the tag "-", the tag's name when
    it has one, the Go name otherwise. *)
Definition key_of (f : field) : option string :=
  match f_tag f with
  | None => Some (f_name f)
  | Some tag =>
      if String.eqb tag "-" then None
      else if String.eqb (tag_name tag) "" then Some (f_name f)
      else Some (tag_name tag)
  end.

(** The double quote character. *)
Definition dquote : ascii := "034"%char.

Definition quote (s : string) : string := String dquote (s +:+ String dquote "").

Definition encode_value `{JSON} (v : value) : string :=
  match v with
  | VString s => Marshal_string s
  | VBytes None => "null"
  | VBytes (Some b) => quote (base64.EncodeToString (bytes_of_string b))
  | VBool true => "true"
  | VBool false => "false"
  end.

Definition encode_field `{JSON} (f : field) : option string :=
  match key_of f with
  | Some k => Some (quote k +:+ ":" +:+ encode_value (f_value f))
  | None => None
  end.

Fixpoint join (sep : string) (l : list string) : string :=
  match l with
  | [] => ""
  | [x] => x
  | x :: rest => x +:+ sep +:+ join sep rest
  end.

(** [json.Marshal] of a struct value given by its fields. *)
Definition Marshal_struct `{JSON} (fs : list field) : string :=
  "{" +:+ join "," (omap encode_field fs) +:+ "}".

(** The fields of [User], with the tags of its declaration. *)
Definition User_fields (user : User) : list field :=
  [ MkField "Username" (Some "username") (VString (Username user));
    MkField "PlaintextPassword" (Some "-") (VString (PlaintextPassword user));
    MkField "BcryptedPassword" (Some "_") (VBytes (BcryptedPassword user));
    MkField "AuthToken" (Some "-") (VString (AuthToken user));
    MkField "Admin" (Some "admin") (VBool (Admin user)) ].

Definition Marshal_User `{JSON} (user : User) : string :=
  Marshal_struct (User_fields user).

End json.

(** ** The listing parameters *)

(** [Filters], its methods, [Metadata] and [calculateMetadata] are declared
    in another file of the package.  users.go reads the fields [Page] and
    [PageSize] and calls the three methods and the function; they are the
    operations of this interface. *)
Class Pagination : Type := {
  Filters : Type;
  Page : Filters -> Z;
  PageSize : Filters -> Z;
  sortColumn : Filters -> string;
  limit : Filters -> Z;
  offset : Filters -> Z;
  Metadata : Type;
  calculateMetadata : Z -> Z -> Z -> Metadata
}.

Module pkg.

(** Modelled from the spec: [pkg.Min] belongs to a package of the
    repository that is not among the sources; the listing "slices to the
    requested page", so the upper bound of the page is the smaller of its
    two arguments. *)
Definition Min (a b : Z) : Z := Z.min a b.

End pkg.

(** Go's [int] addition on a 64-bit platform. *)
Definition wrap64 (x : Z) : Z := (x + 2 ^ 63) mod 2 ^ 64 - 2 ^ 63.

Module sort.

(** [sort.Slice(s, less)] is taken by its documentation, not by one
    algorithm: the slice is rearranged, and for a [less] that is a strict
    weak order no element ends up before one it has to follow.  "The sort
    is not guaranteed to be stable": which of two elements that compare
    equal comes first is left to the release of Go in use, so the function
    is an interface here and a statement holds for every implementation
    that keeps the two properties. *)
Class Sorter : Type := {
  Slice : forall {A : Type}, (A -> A -> bool) -> list A -> list A;
  Slice_Permutation : forall {A : Type} (less : A -> A -> bool) (s : list A),
    Slice less s ≡ₚ s;
  Slice_Sorted : forall {A : Type} (less : A -> A -> bool) (s : list A),
    (forall a b, less a b = true -> less b a = false) ->
    (forall a b c, less b a = false -> less c b = false -> less c a = false) ->
    Sorted (fun a b => less b a = false) (Slice less s)
}.

(** The insertion sort that Go runs on a slice of at most twelve elements
    ([insertionSortLessFunc]): element [i] travels left past every element
    it is [less] than.  [sorted] is the part before [i], last element
    first. *)
Fixpoint sift {A} (less : A -> A -> bool) (x : A) (sorted : list A) : list A :=
  match sorted with
  | [] => [x]
  | y :: rest => if less x y then y :: sift less x rest else x :: y :: rest
  end.

Definition insertionSort {A} (less : A -> A -> bool) (s : list A) : list A :=
  rev (fold_left (fun sorted x => sift less x sorted) s []).

End sort.

(** ** UserModel *)

Module UserModel.

Import globals.
Local Open Scope go_scope.

(** [fmt.Sprintf("%X", sha256.Sum256(data))]: the digest in upper-case
    hexadecimal. *)
Definition hash_hex (data : list Z) : string :=
  fmt.Sprintf_X (sha256.Sum256 data).

(** [resp.Responses[i].GetResponseRange()], ready for a field access. *)
Definition response_range (resp : TxnResponse) (i : nat) : M RangeResponse :=
  op <- lift (index (Responses resp) i) ;;
  lift (GetResponseRange op).

(** [InsertCheckToken].  [now_txn] is the reading of [time.Now().Unix()]
    that builds the transaction; [now_check] is the later reading of the
    failure branch. *)
Definition InsertCheckToken (now_txn now_check : Z) (newUser callingUser : User)
  : M ScrubbedUser :=
  let newUserPath := GetUserPath (Username newUser) in
  let newUserAdminPath := GetUserAdminPath (Username newUser) in
  let newUserHashedPasswordPath := GetUserHashedPasswordPath (Username newUser) in
  let fastHashedPassword := hash_hex (bytes_of_slice (BcryptedPassword newUser)) in
  let hashedToken := hash_hex (bytes_of_string (AuthToken callingUser)) in
  let callingUserTokenPath := GetUserTokenPath (Username callingUser) hashedToken in
  resp <- Etcd.Txn
    [ CompareCreateRevision callingUserTokenPath GREATER 0;
      CompareValue callingUserTokenPath GREATER (fmt.Sprint_int64 now_txn);
      CompareCreateRevision newUserPath EQUAL 0 ]
    [ OpPut newUserPath "";
      OpPut newUserHashedPasswordPath fastHashedPassword;
      OpPut newUserAdminPath (fmt.Sprint_bool (Admin newUser)) ]
    [ OpGet callingUserTokenPath false;
      OpGet newUserPath false ] ;;
  if negb (Succeeded resp) then
    r0 <- response_range resp 0 ;;
    if Count r0 =? 0 then fail ErrInvalidCredentials
    else
      kv0 <- lift (index (Kvs r0) 0) ;;
      expiry <- lift (strconv.ParseInt (Value kv0)) ;;
      if expiry <? now_check then fail ErrInvalidCredentials
      else
        r1 <- response_range resp 1 ;;
        if negb (Count r1 =? 0) then fail ErrDuplicateUsername
        else panic "inserting user failed with an unknown error"
  else ret (Scrub newUser).

(** [Insert]: the bootstrap creation. *)
Definition Insert (newUser : User) : M unit :=
  let newUserPath := GetUserPath (Username newUser) in
  let newUserAdminPath := GetUserAdminPath (Username newUser) in
  let newUserHashedPasswordPath := GetUserHashedPasswordPath (Username newUser) in
  let hashedPassword := hash_hex (bytes_of_slice (BcryptedPassword newUser)) in
  resp <- Etcd.Txn
    [ CompareCreateRevision newUserPath EQUAL 0 ]
    [ OpPut newUserPath "";
      OpPut newUserHashedPasswordPath hashedPassword;
      OpPut newUserAdminPath (fmt.Sprint_bool (Admin newUser)) ]
    [] ;;
  if negb (Succeeded resp) then fail ErrDuplicateUsername
  else ret tt.

(** [Get]. *)
Definition Get `{JSON} (username : string) : M ScrubbedUser :=
  resp <- Etcd.Get (GetUserPath username) false ;;
  if Count resp =? 0 then fail ErrRecordNotFound
  else
    kv0 <- lift (index (Kvs resp) 0) ;;
    user <- lift (Unmarshal_User (Value kv0)) ;;
    ret (Scrub user).

(** The body of the loop of [GetUserWithPassword]: the switch on the
    whole key of each returned pair. *)
Fixpoint reassemble (kvs : list KeyValue) (user : User) : outcome User :=
  match kvs with
  | [] => Ok user
  | kv :: rest =>
      if String.eqb (Key kv) "admin" then
        match strconv.ParseBool (Value kv) with
        | Ok b => reassemble rest (set_Admin user b)
        | Err e => Err e
        | Panic m => Panic m
        end
      else if String.eqb (Key kv) "hashed_password" then
        reassemble rest (set_BcryptedPassword user (Some (Value kv)))
      else reassemble rest user
  end.

(** [GetUserWithPassword]. *)
Definition GetUserWithPassword (username : string) : M User :=
  resp <- Etcd.Get (GetUserPath username) true ;;
  if Count resp =? 0 then fail ErrRecordNotFound
  else lift (reassemble (Kvs resp) (set_Username User_zero username)).

(** [GetUserCheckToken].  [now] is the reading of [time.Now().Unix()]. *)
Definition GetUserCheckToken `{JSON} (now : Z) (username inputToken : string)
  : M ScrubbedUser :=
  let userDataPath := GetUserPath username in
  let userTokenPath := userDataPath +:+ "/tokens" in
  resp <- Etcd.Txn
    [ CompareCreateRevision userDataPath GREATER 0;
      CompareCreateRevision userTokenPath GREATER 0 ]
    [ OpGet userTokenPath false;
      OpGet userDataPath false ]
    [] ;;
  if negb (Succeeded resp) then fail ErrRecordNotFound
  else
    r0 <- response_range resp 0 ;;
    kv0 <- lift (index (Kvs r0) 0) ;;
    token <- lift (Unmarshal_Token (Value kv0)) ;;
    expiry <- lift (strconv.ParseInt (ExpiryUnixTime token)) ;;
    if expiry <? now then fail ErrRecordNotFound
    else
      r1 <- response_range resp 1 ;;
      kv1 <- lift (index (Kvs r1) 0) ;;
      lift (Unmarshal_ScrubbedUser (Value kv1)).

(** [GetUserWithPasswordWithContext].  [ctx] is the pointer to the
    context of the caller: [*ctx] panics on the nil pointer, and the read
    runs under the context it points to, not under a timeout of its own. *)
Definition GetUserWithPasswordWithContext `{JSON}
    (username : string) (ctx : option context.Context) : M User :=
  match ctx with
  | None => panic "runtime error: invalid memory address or nil pointer dereference"
  | Some ctx =>
      resp <- Etcd.under ctx (Etcd.Get (GetUserPath username) false) ;;
      if Count resp =? 0 then fail ErrRecordNotFound
      else
        kv0 <- lift (index (Kvs resp) 0) ;;
        lift (Unmarshal_User (Value kv0))
  end.

(** [UpdateNoLock].  The context the caller hands in is taken to be live
    when the call starts; its expiry under way is a fault of the
    transport. *)
Definition UpdateNoLock `{JSON} (user : User) : M unit :=
  let bytes := json.Marshal_User user in
  Etcd.Put (GetUserPath (Username user)) bytes.

(** [Delete]. *)
Definition Delete (username : string) : M unit :=
  let userDataPath := GetUserPath username in
  resp <- Etcd.Get userDataPath true ;;
  if Count resp =? 0 then fail ErrRecordNotFound
  else Etcd.Delete userDataPath true.

(** The scan loop of [GetAll]: [users] and [totalRecords] are the
    accumulators. *)
Fixpoint scan `{JSON} (username : string) (admin : option bool)
    (kvs : list KeyValue) (users : list ScrubbedUser) (totalRecords : Z)
  : outcome (list ScrubbedUser * Z) :=
  match kvs with
  | [] => Ok (users, totalRecords)
  | kv :: rest =>
      let prefixStripped := strings.TrimPrefix (Key kv) "sqlpipe/data/users" in
      let levels := strings.Split prefixStripped "/" in
      match index levels 0 with
      | Panic m => Panic m
      | Err e => Err e
      | Ok topLevel =>
          if (1 <? Z.of_nat (List.length levels)) then
            scan username admin rest users totalRecords
          else if negb (String.eqb username "")
                  && negb (strings.Contains topLevel username) then
            scan username admin rest users totalRecords
          else
            match Unmarshal_User (Value kv) with
            | Panic m => Panic m
            | Err e => Err e
            | Ok user =>
                if match admin with
                   | Some a => negb (Bool.eqb (Admin user) a)
                   | None => false
                   end
                then scan username admin rest users totalRecords
                else scan username admin rest (users ++ [Scrub user]) (totalRecords + 1)
            end
      end
  end.

(** The switch on [filters.sortColumn()] with its two calls of
    [sort.Slice]. *)
Definition sort_users `{sort.Sorter} (column : string) (users : list ScrubbedUser)
  : list ScrubbedUser :=
  if String.eqb column "-username" then
    sort.Slice (fun a b => String.ltb (Scrubbed_Username b) (Scrubbed_Username a)) users
  else
    sort.Slice (fun a b => String.ltb (Scrubbed_Username a) (Scrubbed_Username b)) users.

(** The copy loop of [GetAll]: [i] runs from the offset up to [maxItem];
    [fuel] is the number of iterations left. *)
Fixpoint paginate (fuel : nat) (users : list ScrubbedUser) (i : Z)
    (paginatedUsers : list ScrubbedUser) : outcome (list ScrubbedUser) :=
  match fuel with
  | O => Ok paginatedUsers
  | S fuel' =>
      if i <? 0 then Panic "runtime error: index out of range"
      else
        match index users (Z.to_nat i) with
        | Ok u => paginate fuel' users (i + 1) (paginatedUsers ++ [u])
        | Err e => Err e
        | Panic m => Panic m
        end
  end.

(** [GetAll].  The nil page of the early return is the empty list. *)
Definition GetAll `{JSON} `{Pagination} `{sort.Sorter}
    (username : string) (admin : option bool) (filters : Filters)
  : M (list ScrubbedUser * Metadata) :=
  resp <- Etcd.Get "sqlpipe/data/users" true ;;
  scanned <- lift (scan username admin (Kvs resp) [] 0) ;;
  let '(users, totalRecords) := scanned in
  let users := sort_users (sortColumn filters) users in
  if totalRecords <? offset filters then
    ret ([], calculateMetadata totalRecords (Page filters) (PageSize filters))
  else
    let maxItem := pkg.Min (wrap64 (offset filters + limit filters)) totalRecords in
    paginatedUsers <-
      lift (paginate (Z.to_nat (maxItem - offset filters)) users (offset filters) []) ;;
    ret (paginatedUsers, calculateMetadata totalRecords (Page filters) (PageSize filters)).

End UserModel.

(** ** A reference decoder

    An instance of the [JSON] interface for the payloads this package
    stores: one object whose members are strings, booleans or null.  Member
    names are matched without regard to case, unknown members are skipped,
    null leaves a field as it is.  It is the decoder of the executable
    examples; the general statements hold for every instance. *)

Module RefJSON.

Inductive jval : Type :=
| JStr (s : string)
| JBool (b : bool)
| JNull.

Definition is_ws (c : ascii) : bool :=
  Ascii.eqb c " " || Ascii.eqb c "009" || Ascii.eqb c "010" || Ascii.eqb c "013".

Fixpoint skip_ws (s : string) : string :=
  match s with
  | String c rest => if is_ws c then skip_ws rest else s
  | EmptyString => s
  end.

Definition unescape (c : ascii) : option ascii :=
  if Ascii.eqb c json.dquote then Some json.dquote
  else if Ascii.eqb c "\" then Some "\"%char
  else if Ascii.eqb c "/" then Some "/"%char
  else if Ascii.eqb c "b" then Some "008"%char
  else if Ascii.eqb c "f" then Some "012"%char
  else if Ascii.eqb c "n" then Some "010"%char
  else if Ascii.eqb c "r" then Some "013"%char
  else if Ascii.eqb c "t" then Some "009"%char
  else None.

(** The characters of a string literal after its opening quote, and the
    rest of the input after its closing quote. *)
Fixpoint read_string (s : string) : option (string * string) :=
  match s with
  | EmptyString => None
  | String c rest =>
      if Ascii.eqb c json.dquote then Some ("", rest)
      else if Ascii.eqb c "\" then
        match rest with
        | String e rest' =>
            match unescape e, read_string rest' with
            | Some c', Some (body, tail) => Some (String c' body, tail)
            | _, _ => None
            end
        | EmptyString => None
        end
      else if (Z.of_N (N_of_ascii c) <? 32) then None
      else
        match read_string rest with
        | Some (body, tail) => Some (String c body, tail)
        | None => None
        end
  end.

Definition read_value (s : string) : option (jval * string) :=
  match s with
  | String c rest =>
      if Ascii.eqb c json.dquote then
        match read_string rest with
        | Some (body, tail) => Some (JStr body, tail)
        | None => None
        end
      else if String.prefix "true" s then Some (JBool true, strings.drop 4 s)
      else if String.prefix "false" s then Some (JBool false, strings.drop 5 s)
      else if String.prefix "null" s then Some (JNull, strings.drop 4 s)
      else None
  | EmptyString => None
  end.

(** The members of an object after its opening brace. *)
Fixpoint read_members (fuel : nat) (s : string) : option (list (string * jval) * string) :=
  match fuel with
  | O => None
  | S fuel' =>
      match skip_ws s with
      | String c rest =>
          if negb (Ascii.eqb c json.dquote) then None
          else
            match read_string rest with
            | None => None
            | Some (key, tail) =>
                match skip_ws tail with
                | String colon tail' =>
                    if negb (Ascii.eqb colon ":") then None
                    else
                      match read_value (skip_ws tail') with
                      | None => None
                      | Some (v, tail'') =>
                          match skip_ws tail'' with
                          | String sep tail3 =>
                              if Ascii.eqb sep "}" then Some ([(key, v)], tail3)
                              else if Ascii.eqb sep "," then
                                match read_members fuel' tail3 with
                                | Some (ms, tail4) => Some ((key, v) :: ms, tail4)
                                | None => None
                                end
                              else None
                          | EmptyString => None
                          end
                      end
                | EmptyString => None
                end
            end
      | EmptyString => None
      end
  end.

Definition syntax_error : error := ErrJSON "invalid character".

Definition type_error : error := ErrJSON "cannot unmarshal into Go value".

Definition parse_object (data : string) : outcome (list (string * jval)) :=
  match skip_ws data with
  | EmptyString => Err unexpected_end
  | String c rest =>
      if negb (Ascii.eqb c "{") then Err syntax_error
      else
        match skip_ws rest with
        | String c' rest' =>
            if Ascii.eqb c' "}" then
              match skip_ws rest' with
              | EmptyString => Ok []
              | _ => Err syntax_error
              end
            else
              match read_members (String.length rest) rest with
              | Some (ms, tail) =>
                  match skip_ws tail with
                  | EmptyString => Ok ms
                  | _ => Err syntax_error
                  end
              | None => Err syntax_error
              end
        | EmptyString => Err unexpected_end
        end
  end.

Definition lower (c : ascii) : ascii :=
  let n := Z.of_N (N_of_ascii c) in
  if (65 <=? n) && (n <=? 90) then ascii_of_N (Z.to_N (n + 32)) else c.

Fixpoint fold_eq (a b : string) : bool :=
  match a, b with
  | EmptyString, EmptyString => true
  | String x a', String y b' => Ascii.eqb (lower x) (lower y) && fold_eq a' b'
  | _, _ => false
  end.

Definition dec (c : ascii) : option Z :=
  match String.index 0 (String c "") base64.alphabet with
  | Some i => Some (Z.of_nat i)
  | None => None
  end.

Definition byte_char (z : Z) : ascii := ascii_of_N (Z.to_N (z mod 256)).

(** Decoding of padded base64, four characters at a time. *)
Fixpoint base64_decode (fuel : nat) (s : string) : option string :=
  match fuel with
  | O => None
  | S fuel' =>
      match s with
      | EmptyString => Some ""
      | String a (String b (String c (String d rest))) =>
          match dec a, dec b with
          | Some x, Some y =>
              let b0 := byte_char (x * 4 + y / 16) in
              if Ascii.eqb c "=" then
                if Ascii.eqb d "=" && String.eqb rest "" then Some (String b0 "") else None
              else
                match dec c with
                | Some z =>
                    let b1 := byte_char ((y mod 16) * 16 + z / 4) in
                    if Ascii.eqb d "=" then
                      if String.eqb rest "" then Some (String b0 (String b1 "")) else None
                    else
                      match dec d, base64_decode fuel' rest with
                      | Some w, Some tail =>
                          Some (String b0 (String b1 (String (byte_char ((z mod 4) * 64 + w)) tail)))
                      | _, _ => None
                      end
                | None => None
                end
          | _, _ => None
          end
      | _ => None
      end
  end.

Fixpoint fill_User (ms : list (string * jval)) (user : User) : outcome User :=
  match ms with
  | [] => Ok user
  | (k, v) :: rest =>
      if fold_eq k "username" then
        match v with
        | JStr s => fill_User rest (set_Username user s)
        | JNull => fill_User rest user
        | JBool _ => Err type_error
        end
      else if fold_eq k "_" then
        match v with
        | JStr s =>
            match base64_decode (S (String.length s)) s with
            | Some b => fill_User rest (set_BcryptedPassword user (Some b))
            | None => Err (ErrJSON "illegal base64 data")
            end
        | JNull => fill_User rest (set_BcryptedPassword user None)
        | JBool _ => Err type_error
        end
      else if fold_eq k "admin" then
        match v with
        | JBool b => fill_User rest (set_Admin user b)
        | JNull => fill_User rest user
        | JStr _ => Err type_error
        end
      else fill_User rest user
  end.

Fixpoint fill_ScrubbedUser (ms : list (string * jval)) (u : ScrubbedUser)
  : outcome ScrubbedUser :=
  match ms with
  | [] => Ok u
  | (k, v) :: rest =>
      if fold_eq k "username" then
        match v with
        | JStr s => fill_ScrubbedUser rest (MkScrubbedUser s (Scrubbed_Admin u))
        | JNull => fill_ScrubbedUser rest u
        | JBool _ => Err type_error
        end
      else if fold_eq k "admin" then
        match v with
        | JBool b => fill_ScrubbedUser rest (MkScrubbedUser (Scrubbed_Username u) b)
        | JNull => fill_ScrubbedUser rest u
        | JStr _ => Err type_error
        end
      else fill_ScrubbedUser rest u
  end.

Fixpoint fill_Token (ms : list (string * jval)) (t : Token) : outcome Token :=
  match ms with
  | [] => Ok t
  | (k, v) :: rest =>
      if fold_eq k "ExpiryUnixTime" then
        match v with
        | JStr s => fill_Token rest (MkToken s)
        | JNull => fill_Token rest t
        | JBool _ => Err type_error
        end
      else fill_Token rest t
  end.

Definition decode {A} (fill : list (string * jval) -> A -> outcome A) (zero : A)
    (data : string) : outcome A :=
  match parse_object data with
  | Ok ms => fill ms zero
  | Err e => Err e
  | Panic m => Panic m
  end.

Definition hex_lower (d : Z) : ascii :=
  if d <? 10 then ascii_of_N (Z.to_N (48 + d)) else ascii_of_N (Z.to_N (87 + d)).

Definition escape_char (c : ascii) : string :=
  let n := Z.of_N (N_of_ascii c) in
  if Ascii.eqb c json.dquote then String "\" (String json.dquote "")
  else if Ascii.eqb c "\" then "\\"
  else if Ascii.eqb c "010" then "\n"
  else if Ascii.eqb c "013" then "\r"
  else if Ascii.eqb c "009" then "\t"
  else if (n <? 32) || Ascii.eqb c "<" || Ascii.eqb c ">" || Ascii.eqb c "&" then
    "\u00" +:+ String (hex_lower (n / 16)) (String (hex_lower (n mod 16)) "")
  else String c "".

Fixpoint escape (s : string) : string :=
  match s with
  | EmptyString => ""
  | String c rest => escape_char c +:+ escape rest
  end.

(** Test payloads are written with single quotes for the double quotes
    of JSON. *)
Fixpoint js (s : string) : string :=
  match s with
  | EmptyString => ""
  | String c rest => String (if Ascii.eqb c "'" then json.dquote else c) (js rest)
  end.

#[global] Instance codec : JSON := {|
  Unmarshal_User := decode fill_User User_zero;
  Unmarshal_ScrubbedUser := decode fill_ScrubbedUser ScrubbedUser_zero;
  Unmarshal_Token := decode fill_Token (MkToken "");
  Marshal_string := fun s => json.quote (escape s)
|}.

End RefJSON.

(** ** Notions used in the statements *)

(** A client whose calls reach the store: no transport fault is pending. *)
Definition healthy (c : Client) : Prop := faults c = [].

(** The key space a successful bootstrap leaves behind: the three puts of
    the success branch of [Insert], at revision [r]. *)
Definition inserted (ks : gmap string entry) (r : positive) (newUser : User)
  : gmap string entry :=
  put (put (put ks r (globals.GetUserPath (Username newUser)) "")
           r (globals.GetUserHashedPasswordPath (Username newUser))
           (UserModel.hash_hex (bytes_of_slice (BcryptedPassword newUser))))
      r (globals.GetUserAdminPath (Username newUser)) (fmt.Sprint_bool (Admin newUser)).

(** The condition set of the transaction of [InsertCheckToken]. *)
Definition creation_allowed (ks : gmap string entry) (now_txn : Z)
    (newUser callingUser : User) : bool :=
  let token := globals.GetUserTokenPath (Username callingUser)
                 (UserModel.hash_hex (bytes_of_string (AuthToken callingUser))) in
  forallb (eval_cmp ks)
    [ CompareCreateRevision token GREATER 0;
      CompareValue token GREATER (fmt.Sprint_int64 now_txn);
      CompareCreateRevision (globals.GetUserPath (Username newUser)) EQUAL 0 ].

(** What [InsertCheckToken] answers once its transaction has failed, as a
    function of the two pairs its else-branch read: the caller's token key
    and the target account key. *)
Definition diagnose (token account : option entry) (now_check : Z) : outcome ScrubbedUser :=
  match token with
  | None => Err ErrInvalidCredentials
  | Some t =>
      match strconv.ParseInt (e_value t) with
      | Ok expiry =>
          if expiry <? now_check then Err ErrInvalidCredentials
          else
            match account with
            | Some _ => Err ErrDuplicateUsername
            | None => Panic "inserting user failed with an unknown error"
            end
      | Err e => Err e
      | Panic m => Panic m
      end
  end.

(** The layout of the key-path builder: every stored key under the scan
    prefix of [GetAll] continues with the separator. *)
Definition key_path_layout (ks : gmap string entry) : Prop :=
  forall k, is_Some (ks !! k) ->
            String.prefix "sqlpipe/data/users" k = true ->
            String.prefix "sqlpipe/data/users/" k = true.

(** The same as a test on the result of the prefix read. *)
Definition laid_out (ks : gmap string entry) : bool :=
  forallb (fun kv => String.prefix "sqlpipe/data/users/" (Key kv))
          (Kvs (range ks "sqlpipe/data/users" true)).

(** ** Reference listing parameters *)

(** The usual page arithmetic, for the executable examples: the offset of
    page [p] is [(p - 1) * size], the limit is the page size, and the sort
    column is the requested sort key. *)
Module RefPagination.

Record filters : Type := MkFilters {
  f_Page : Z;
  f_PageSize : Z;
  f_Sort : string
}.

Record metadata : Type := MkMetadata {
  CurrentPage : Z;
  m_PageSize : Z;
  TotalRecords : Z
}.

#[global] Instance paging : Pagination := {|
  Filters := filters;
  Page := f_Page;
  PageSize := f_PageSize;
  sortColumn := f_Sort;
  limit := f_PageSize;
  offset := fun f => wrap64 ((f_Page f - 1) * f_PageSize f);
  Metadata := metadata;
  calculateMetadata := fun total page size => MkMetadata page size total
|}.

End RefPagination.

(** ** Sample stores *)

Module Sample.

Definition empty : Client := MkClient 1 ∅ [].

Definition alice : User :=
  MkUser "alice" "correct horse battery" (Some "$2a$12$aliceBcryptHash") "" true.

Definition alice2 : User :=
  MkUser "alice2" "staple staple staple" (Some "$2a$12$alice2BcryptHash") "" false.

Definition bob : User :=
  MkUser "bob_1" "another long password" (Some "$2a$12$bobBcryptHash") "" false.

(** The caller of an authenticated creation: alice presenting a bearer
    token. *)
Definition caller : User := MkUser "alice" "" None "s3cr3t-bearer-token" false.

(** The key of the caller's token in the layout. *)
Definition caller_token_path : string :=
  globals.GetUserTokenPath "alice"
    (UserModel.hash_hex (bytes_of_string "s3cr3t-bearer-token")).

(** [put_raw] writes one pair directly, as a login flow or an operator
    would. *)
Definition put_raw (key val : string) (c : Client) : Client :=
  snd (Etcd.Put key val c).

(** The store after the bootstrap creation of alice. *)
Definition with_alice : Client := snd (UserModel.Insert alice empty).

(** The store after the bootstrap creation of alice2 alone. *)
Definition with_alice2 : Client := snd (UserModel.Insert alice2 empty).

(** alice together with a session token for her bearer value, stored under
    the token key of the layout with the expiry as decimal text. *)
Definition with_token (expiry : Z) : Client :=
  put_raw caller_token_path (fmt.Sprint_int64 expiry) with_alice.

(** alice with a token pair whose value is not a timestamp. *)
Definition with_malformed_token : Client :=
  put_raw caller_token_path "never" with_alice.

(** alice after a full-record overwrite: her account key holds the JSON
    record. *)
Definition with_record : Client := snd (UserModel.UpdateNoLock alice with_alice).

Definition token_record (expiry : Z) : string :=
  RefJSON.js "{'ExpiryUnixTime':'" +:+ fmt.Sprint_int64 expiry +:+ RefJSON.js "'}".

(** The same store with a token record under the key that
    [GetUserCheckToken] reads, expiring at [expiry]. *)
Definition with_session (expiry : Z) : Client :=
  put_raw (globals.GetUserPath "alice" +:+ "/tokens") (token_record expiry) with_record.

(** The same store with the token record stored as the layout prescribes,
    under the hash of the bearer value. *)
Definition with_hashed_session (expiry : Z) : Client :=
  put_raw caller_token_path (token_record expiry) with_record.

(** A store whose account records sit directly behind the scan prefix, with
    no separator: the only keys whose values the scan of [GetAll] decodes. *)
Definition flat : Client :=
  put_raw "sqlpipe/data/users.carol" (RefJSON.js "{'username':'carol','admin':false}")
    (put_raw "sqlpipe/data/users.alice" (RefJSON.js "{'username':'alice','admin':true}")
       (put_raw "sqlpipe/data/users.bob_1" (RefJSON.js "{'username':'bob_1','admin':false}")
          empty)).

End Sample.

(** ** Notions used in the further statements *)

(** A computation that leaves the stored pairs and the revision of the
    cluster as they were, whatever it answers. *)
Definition preserves_store {A} (m : M A) : Prop :=
  forall c, keyspace (snd (m c)) = keyspace c /\ revision (snd (m c)) = revision c.

(** An operation of a transaction branch that only reads. *)
Definition is_read (o : Op) : bool :=
  match o with OpGet _ _ => true | _ => false end.

(** The key of a pair lies directly behind the scan prefix of [GetAll]: what
    is left after the prefix has a single level. *)
Definition top_level (kv : KeyValue) : bool :=
  negb (1 <? Z.of_nat (List.length
          (strings.Split (strings.TrimPrefix (Key kv) "sqlpipe/data/users") "/"))).

(** The first level of the key of a pair behind the scan prefix. *)
Definition first_level (kv : KeyValue) : string :=
  nth 0 (strings.Split (strings.TrimPrefix (Key kv) "sqlpipe/data/users") "/") "".

(** The pair passes the username filter of [GetAll]. *)
Definition passes_username (username : string) (kv : KeyValue) : bool :=
  String.eqb username "" || strings.Contains (first_level kv) username.

(** The decoded record passes the admin filter of [GetAll]. *)
Definition passes_admin (admin : option bool) (user : User) : bool :=
  match admin with
  | Some a => Bool.eqb (Admin user) a
  | None => true
  end.

(** A computation that hands the client on exactly as it received it. *)
Definition leaves_client {A} (m : M A) : Prop := forall c, snd (m c) = c.

(** The last character of a string. *)
Fixpoint last_char (s : string) : option ascii :=
  match s with
  | EmptyString => None
  | String a EmptyString => Some a
  | String _ rest => last_char rest
  end.

(** What one pair of the scan contributes to the listing: the scrubbed
    record of a pair that lies at the top level, passes the username
    filter, decodes, and passes the admin filter; nothing otherwise. *)
Definition listed `{JSON} (username : string) (admin : option bool) (kv : KeyValue)
  : option ScrubbedUser :=
  if top_level kv && passes_username username kv then
    match Unmarshal_User (Value kv) with
    | Ok user => if passes_admin admin user then Some (Scrub user) else None
    | _ => None
    end
  else None.

(** The pair is one whose value the scan hands to the decoder. *)
Definition decoded_by_scan (username : string) (kv : KeyValue) : bool :=
  top_level kv && passes_username username kv.

(** The flat sample store with one more record whose value is not JSON. *)
Definition flat_with_garbage : Client :=
  Sample.put_raw "sqlpipe/data/users.dave" "not a record" Sample.flat.

(** The order [GetAll] asks of a page without two equal usernames: strictly
    descending usernames for the sort column ["-username"], strictly
    ascending ones for every other column. *)
Definition in_order (column : string) (a b : ScrubbedUser) : Prop :=
  if String.eqb column "-username"
  then String.ltb (Scrubbed_Username b) (Scrubbed_Username a) = true
  else String.ltb (Scrubbed_Username a) (Scrubbed_Username b) = true.

(** An account as the package leaves it for its readers: created, then
    overwritten with its full record. *)
Definition register (user : User) (c : Client) : Client :=
  snd (UserModel.UpdateNoLock user (snd (UserModel.Insert user c))).

(** The store with the three sample accounts alice, alice2 and bob_1. *)
Definition three_accounts : Client :=
  register Sample.bob (register Sample.alice2 (register Sample.alice Sample.empty)).

(** The pairs the scan of [GetAll] reads from a key space. *)
Definition scanned (ks : gmap string entry) : list KeyValue :=
  Kvs (range ks "sqlpipe/data/users" true).

(** alice's record with, under the key [GetUserCheckToken] reads, a value
    that is not a token record. *)
Definition with_broken_session : Client :=
  Sample.put_raw (globals.GetUserPath "alice" +:+ "/tokens") "1700000060"
    Sample.with_record.

(** ** A reference sort

    An instance of the [sort.Sorter] interface: Go's insertion sort, which
    keeps the order of elements that compare equal.  It is the sort of the
    executable examples; the general statements hold for every instance. *)

Module RefSort.

Lemma sift_Permutation {A} (less : A -> A -> bool) (x : A) (sorted : list A) :
  sort.sift less x sorted ≡ₚ x :: sorted.
Proof.
  induction sorted as [|y rest IH]; simpl; [reflexivity|].
  destruct (less x y); [|reflexivity].
  rewrite IH. apply Permutation_swap.
Qed.

Lemma passes_Permutation {A} (less : A -> A -> bool) (s sorted : list A) :
  fold_left (fun sorted x => sort.sift less x sorted) s sorted ≡ₚ (s ++ sorted)%list.
Proof.
  revert sorted. induction s as [|x s IH]; intros sorted; simpl; [reflexivity|].
  rewrite IH, sift_Permutation. symmetry. apply Permutation_middle.
Qed.

Lemma insertionSort_Permutation {A} (less : A -> A -> bool) (s : list A) :
  sort.insertionSort less s ≡ₚ s.
Proof.
  unfold sort.insertionSort. rewrite <- Permutation_rev, passes_Permutation.
  now rewrite app_nil_r.
Qed.

Lemma sift_Sorted {A} (less : A -> A -> bool) (x : A) (sorted : list A) :
  (forall a b, less a b = true -> less b a = false) ->
  Sorted (fun a b => less a b = false) sorted ->
  Sorted (fun a b => less a b = false) (sort.sift less x sorted).
Proof.
  intros Hasym. induction 1 as [|y rest Hrest IH Hhd]; simpl.
  - repeat constructor.
  - destruct (less x y) eqn:Hxy.
    + constructor; [exact IH|].
      destruct Hhd as [|z rest' Hyz]; simpl.
      * constructor. now apply Hasym.
      * destruct (less x z); constructor; [exact Hyz | now apply Hasym].
    + constructor; [now constructor | now constructor].
Qed.

Lemma passes_Sorted {A} (less : A -> A -> bool) (s sorted : list A) :
  (forall a b, less a b = true -> less b a = false) ->
  Sorted (fun a b => less a b = false) sorted ->
  Sorted (fun a b => less a b = false)
         (fold_left (fun sorted x => sort.sift less x sorted) s sorted).
Proof.
  intros Hasym. revert sorted. induction s as [|x s IH]; intros sorted Hs; simpl.
  - exact Hs.
  - apply IH. now apply sift_Sorted.
Qed.

Lemma insertionSort_Sorted {A} (less : A -> A -> bool) (s : list A) :
  (forall a b, less a b = true -> less b a = false) ->
  (forall a b c, less b a = false -> less c b = false -> less c a = false) ->
  Sorted (fun a b => less b a = false) (sort.insertionSort less s).
Proof.
  intros Hasym _. unfold sort.insertionSort. rewrite rev_alt.
  apply (Sorted_reverse (fun a b => less a b = false)).
  apply passes_Sorted; [exact Hasym | constructor].
Qed.

#[global] Instance insertion : sort.Sorter := {|
  sort.Slice := @sort.insertionSort;
  sort.Slice_Permutation := @insertionSort_Permutation;
  sort.Slice_Sorted := @insertionSort_Sorted
|}.

End RefSort.

(** * Properties *)

(** Closed goals about concrete stores are settled by evaluation. *)
Ltac run := vm_compute; reflexivity.

(** ** The library models on known values *)

Example ParseInt_timestamp : strconv.ParseInt "1700000000" = Ok 1700000000.
Proof. run. Qed.

Example ParseInt_min : strconv.ParseInt "-9223372036854775808" = Ok (- 2 ^ 63).
Proof. run. Qed.

Example ParseInt_out_of_range :
  strconv.ParseInt "9223372036854775808"
  = Err (ErrRange "ParseInt" "9223372036854775808").
Proof. run. Qed.

Example ParseInt_not_a_number : strconv.ParseInt "12a" = Err (ErrSyntax "ParseInt" "12a").
Proof. run. Qed.

Example ParseInt_plus_sign : strconv.ParseInt "+7" = Ok 7.
Proof. run. Qed.

Example FormatInt_values :
  strconv.FormatInt 1700000000 = "1700000000" /\
  strconv.FormatInt (-45) = "-45" /\
  strconv.FormatInt 0 = "0".
Proof. repeat split. Qed.

Example ParseBool_values :
  strconv.ParseBool "true" = Ok true /\
  strconv.ParseBool "F" = Ok false /\
  strconv.ParseBool "yes" = Err (ErrSyntax "ParseBool" "yes").
Proof. repeat split. Qed.

Example Split_account_key : strings.Split "/alice" "/" = [""; "alice"].
Proof. run. Qed.

Example Split_token_key :
  strings.Split "/alice/tokens/AB" "/" = [""; "alice"; "tokens"; "AB"].
Proof. run. Qed.

Example Split_no_separator : strings.Split "alice" "/" = ["alice"].
Proof. run. Qed.

Example Split_empty : strings.Split "" "/" = [""].
Proof. run. Qed.

Example TrimPrefix_account_key :
  strings.TrimPrefix "sqlpipe/data/users/alice" "sqlpipe/data/users" = "/alice".
Proof. run. Qed.

Example Contains_values :
  strings.Contains "alice" "lic" = true /\ strings.Contains "alice" "bob" = false.
Proof. repeat split. Qed.

(** The round constants and the initial hash value, at both ends. *)
Example sha256_constants :
  List.length sha256._K = 64%nat /\
  nth 0 sha256._K 0 = 0x428a2f98 /\ nth 63 sha256._K 0 = 0xc67178f2 /\
  nth 0 sha256.init 0 = 0x6a09e667 /\ nth 7 sha256.init 0 = 0x5be0cd19.
Proof. repeat split. Qed.

(** The test vectors of FIPS 180-4 for the empty message, one block and two
    blocks. *)
Example Sum256_empty :
  UserModel.hash_hex (bytes_of_string "")
  = "E3B0C44298FC1C149AFBF4C8996FB92427AE41E4649B934CA495991B7852B855".
Proof. run. Qed.

Example Sum256_abc :
  UserModel.hash_hex (bytes_of_string "abc")
  = "BA7816BF8F01CFEA414140DE5DAE2223B00361A396177A9CB410FF61F20015AD".
Proof. run. Qed.

Example Sum256_two_blocks :
  UserModel.hash_hex
    (bytes_of_string "abcdbcdecdefdefgefghfghighijhijkijkljklmklmnlmnomnopnopq")
  = "248D6A61D20638B8E5C026930C3E6039A33CE45964FF2167F6ECEDD419DB06C1".
Proof. run. Qed.

(** The three padding cases of base64. *)
Example base64_padding :
  base64.EncodeToString (bytes_of_string "hash") = "aGFzaA==" /\
  base64.EncodeToString (bytes_of_string "hash!") = "aGFzaCE=" /\
  base64.EncodeToString (bytes_of_string "hashes") = "aGFzaGVz".
Proof. repeat split. Qed.

(** The reference decoder. *)
Example decode_user_record :
  Unmarshal_User (RefJSON.js "{'username':'alice','_':'aGFzaA==','admin':true}")
  = Ok (MkUser "alice" "" (Some "hash") "" true).
Proof. run. Qed.

Example decode_empty_input : rejects_empty RefJSON.codec.
Proof. repeat split. Qed.

Example decode_any_case_and_order :
  Unmarshal_ScrubbedUser
    (RefJSON.js " { 'Admin' : true , 'other' : null, 'username':'bob' } ")
  = Ok (MkScrubbedUser "bob" true).
Proof. run. Qed.

Example decode_token_record :
  Unmarshal_Token (RefJSON.js "{'expiryUnixTime':'100'}") = Ok (MkToken "100").
Proof. run. Qed.

Example decode_not_an_object : Unmarshal_User "true" = Err RefJSON.syntax_error.
Proof. run. Qed.

(** The encoder on a full record and on a record without a hash. *)
Example Marshal_User_full :
  json.Marshal_User (MkUser "alice" "correct horse battery" (Some "hash") "tok" true)
  = RefJSON.js "{'username':'alice','_':'aGFzaA==','admin':true}".
Proof. run. Qed.

Example Marshal_User_nil_hash :
  json.Marshal_User (MkUser "bob" "pw" None "tok" false)
  = RefJSON.js "{'username':'bob','_':null,'admin':false}".
Proof. run. Qed.

(** ** Strings *)

Section string_facts.

Lemma app_cons (a : ascii) (s t : string) : String a s +:+ t = String a (s +:+ t).
Proof. reflexivity. Qed.

Lemma prefix_app (p s : string) : String.prefix p (p +:+ s) = true.
Proof.
  induction p as [|a p IH]; simpl.
  - destruct s; reflexivity.
  - destruct (ascii_dec a a) as [_|Hne]; [exact IH | congruence].
Qed.

Lemma prefix_inv (p k : string) :
  String.prefix p k = true -> exists s, k = p +:+ s.
Proof.
  revert k. induction p as [|a p IH]; intros k H.
  - exists k. reflexivity.
  - destruct k as [|b k]; simpl in H; [discriminate|].
    destruct (ascii_dec a b) as [->|]; [|discriminate].
    destruct (IH _ H) as [s ->]. exists s. reflexivity.
Qed.

Lemma string_app_assoc (s t u : string) : (s +:+ t) +:+ u = s +:+ (t +:+ u).
Proof.
  induction s as [|a s IH]; [reflexivity|].
  rewrite !app_cons. f_equal. exact IH.
Qed.

Lemma prefix_app_l (p q s : string) :
  String.prefix (p +:+ q) s = true -> String.prefix p s = true.
Proof.
  intros H. apply prefix_inv in H as [t ->].
  rewrite string_app_assoc. apply prefix_app.
Qed.

Lemma string_length_app (s t : string) :
  String.length (s +:+ t) = (String.length s + String.length t)%nat.
Proof.
  induction s as [|a s IH]; [reflexivity|].
  rewrite app_cons. simpl. now rewrite IH.
Qed.

Lemma app_ne_self (s t : string) : t <> "" -> s +:+ t <> s.
Proof.
  intros Ht Heq. apply (f_equal String.length) in Heq.
  rewrite string_length_app in Heq. destruct t; [congruence | simpl in Heq; lia].
Qed.

Lemma ascii_compare_refl (a : ascii) : Ascii.compare a a = Eq.
Proof. unfold Ascii.compare. apply N.compare_refl. Qed.

Lemma string_compare_refl (s : string) : String.compare s s = Eq.
Proof.
  induction s as [|a s IH]; simpl; [reflexivity|].
  now rewrite ascii_compare_refl.
Qed.

(** The order of Go's string comparison is a strict total order. *)
Lemma ltb_lt (a b : string) :
  String.ltb a b = true <-> OrderedTypeEx.String_as_OT.lt a b.
Proof.
  rewrite <- OrderedTypeEx.String_as_OT.cmp_lt. unfold OrderedTypeEx.String_as_OT.cmp, String.ltb.
  destruct (String.compare a b); split; intros H; try reflexivity; discriminate.
Qed.

Lemma ltb_irrefl (a : string) : String.ltb a a = false.
Proof.
  unfold String.ltb.
  pose proof (proj2 (OrderedTypeEx.String_as_OT.cmp_eq a a) eq_refl) as H.
  unfold OrderedTypeEx.String_as_OT.cmp in H. now rewrite H.
Qed.

Lemma ltb_asym (a b : string) : String.ltb a b = true -> String.ltb b a = false.
Proof.
  unfold String.ltb. rewrite (String.compare_antisym b a).
  destruct (String.compare a b); simpl; intros H; try reflexivity; discriminate.
Qed.

Lemma ltb_connex (a b : string) :
  String.ltb a b = false -> String.ltb b a = false -> a = b.
Proof.
  unfold String.ltb. intros Hab Hba.
  apply OrderedTypeEx.String_as_OT.cmp_eq. unfold OrderedTypeEx.String_as_OT.cmp.
  rewrite (String.compare_antisym b a) in Hba.
  destruct (String.compare a b); simpl in *; try reflexivity; discriminate.
Qed.

Lemma ltb_trans (a b c : string) :
  String.ltb a b = true -> String.ltb b c = true -> String.ltb a c = true.
Proof. rewrite !ltb_lt. apply OrderedTypeEx.String_as_OT.lt_trans. Qed.

Lemma not_ltb_trans (a b c : string) :
  String.ltb b a = false -> String.ltb c b = false -> String.ltb c a = false.
Proof.
  intros Hba Hcb. destruct (String.ltb c a) eqn:Hca; [|reflexivity].
  destruct (String.ltb a b) eqn:Hab.
  - rewrite (ltb_trans c a b Hca Hab) in Hcb. discriminate.
  - rewrite (ltb_connex a b Hab Hba) in Hca. congruence.
Qed.

End string_facts.

(** ** The key space *)

Section keyspace_facts.

Implicit Types (ks : gmap string entry) (k p : string) (e : entry).

Lemma select_one ks k :
  filter (fun q : string * entry => in_range k false (fst q) = true) ks
  = match ks !! k with Some e => {[ k := e ]} | None => ∅ end.
Proof.
  apply map_eq. intros i. rewrite map_lookup_filter. simpl.
  destruct (decide (i = k)) as [->|Hne].
  - destruct (ks !! k) as [e|] eqn:Hk; simpl.
    + rewrite option_guard_True by apply String.eqb_refl.
      now rewrite lookup_singleton_eq.
    + now rewrite lookup_empty.
  - assert (Hik : String.eqb k i = false) by (apply String.eqb_neq; congruence).
    destruct (ks !! i) as [e|]; simpl.
    + rewrite option_guard_False by (rewrite Hik; discriminate).
      destruct (ks !! k); [now rewrite lookup_singleton_ne | now rewrite lookup_empty].
    + destruct (ks !! k); [now rewrite lookup_singleton_ne | now rewrite lookup_empty].
Qed.

Lemma range_one_Some ks k e :
  ks !! k = Some e -> range ks k false = MkRangeResponse [kv_of k e] 1.
Proof.
  intros H. unfold range. rewrite select_one, H, map_to_list_singleton.
  reflexivity.
Qed.

Lemma range_one_None ks k :
  ks !! k = None -> range ks k false = MkRangeResponse [] 0.
Proof.
  intros H. unfold range. rewrite select_one, H, map_to_list_empty.
  reflexivity.
Qed.

Lemma put_lookup ks r k v k' :
  put ks r k v !! k' =
  if decide (k = k') then
    Some (match ks !! k with
          | Some e => Entry v (e_create e) r (Pos.succ (e_version e))
          | None => Entry v r r 1%positive
          end)
  else ks !! k'.
Proof.
  unfold put. destruct (ks !! k) as [e|] eqn:Hk; rewrite lookup_insert;
    destruct (decide (k = k')); reflexivity.
Qed.

Lemma put_value ks r k v :
  exists e, put ks r k v !! k = Some e /\ e_value e = v.
Proof.
  rewrite put_lookup, decide_True by reflexivity.
  destruct (ks !! k); eexists; split; reflexivity.
Qed.

(** The pairs a prefix read returns are the stored pairs under the prefix. *)
Lemma range_prefix_elem ks p kv :
  kv ∈ Kvs (range ks p true) <->
  exists e, ks !! Key kv = Some e /\ String.prefix p (Key kv) = true /\ kv = kv_of (Key kv) e.
Proof.
  unfold range. simpl. rewrite merge_sort_Permutation, list_elem_of_fmap.
  split.
  - intros [[k e] [-> Hin]]. apply elem_of_map_to_list in Hin.
    apply map_lookup_filter_Some in Hin as [Hk Hp]. simpl in *. eauto.
  - intros (e & Hk & Hp & Heq). exists (Key kv, e). split; [exact Heq|].
    apply elem_of_map_to_list, map_lookup_filter_Some. split; [exact Hk | exact Hp].
Qed.

Lemma range_count ks key pre :
  Count (range ks key pre) = Z.of_nat (List.length (Kvs (range ks key pre))).
Proof. reflexivity. Qed.

(** A prefix read is empty exactly when no stored key has the prefix. *)
Lemma range_prefix_empty ks p :
  Count (range ks p true) = 0 <->
  forall k, String.prefix p k = true -> ks !! k = None.
Proof.
  rewrite range_count. split.
  - intros H k Hp. destruct (ks !! k) as [e|] eqn:Hk; [|reflexivity].
    assert (Hin : kv_of k e ∈ Kvs (range ks p true)).
    { apply range_prefix_elem. exists e. simpl. auto. }
    destruct (Kvs (range ks p true)); [inversion Hin | simpl in H; lia].
  - intros H. destruct (Kvs (range ks p true)) as [|kv l] eqn:Hl; [reflexivity|].
    assert (Hin : kv ∈ Kvs (range ks p true)) by (rewrite Hl; left).
    apply range_prefix_elem in Hin as (e & Hk & Hp & _).
    rewrite (H _ Hp) in Hk. discriminate.
Qed.

Lemma delete_range_lookup ks p k :
  delete_range ks p true !! k = if String.prefix p k then None else ks !! k.
Proof.
  unfold delete_range. rewrite map_lookup_filter. simpl.
  destruct (ks !! k) as [e|]; simpl.
  - destruct (String.prefix p k) eqn:Hp.
    + now rewrite option_guard_False by discriminate.
    + now rewrite option_guard_True.
  - now destruct (String.prefix p k).
Qed.

End keyspace_facts.

(** ** Calls that reach the store *)

Section client_facts.

Lemma transport_healthy {A} (run : Client -> A * Client) (c : Client) :
  healthy c -> Etcd.transport run c = (Ok (fst (run c)), snd (run c)).
Proof.
  unfold healthy, Etcd.transport. intros ->. now destruct (run c).
Qed.

Lemma Get_healthy (key : string) (pre : bool) (c : Client) :
  healthy c -> Etcd.Get key pre c = (Ok (range (keyspace c) key pre), c).
Proof. intros H. unfold Etcd.Get. now rewrite transport_healthy. Qed.

Lemma Txn_healthy (cmps : list Cmp) (thenOps elseOps : list Op) (c : Client) :
  healthy c ->
  Etcd.Txn cmps thenOps elseOps c =
  let ok := forallb (eval_cmp (keyspace c)) cmps in
  let res := apply_ops (Pos.succ (revision c)) (keyspace c) (if ok then thenOps else elseOps) in
  (Ok (MkTxnResponse ok (snd res)), Etcd.commit c (fst res) (snd res)).
Proof.
  intros H. unfold Etcd.Txn. rewrite transport_healthy by exact H. simpl.
  now destruct (apply_ops _ _ _).
Qed.

Lemma Put_healthy (key val : string) (c : Client) :
  healthy c ->
  Etcd.Put key val c =
  (Ok tt, Etcd.commit c (put (keyspace c) (Pos.succ (revision c)) key val) [ResponsePut]).
Proof. intros H. unfold Etcd.Put. now rewrite transport_healthy. Qed.

Lemma Delete_healthy (key : string) (pre : bool) (c : Client) :
  healthy c ->
  Etcd.Delete key pre c =
  (Ok tt, Etcd.commit c (delete_range (keyspace c) key pre)
            [ResponseDeleteRange (Count (range (keyspace c) key pre))]).
Proof. intros H. unfold Etcd.Delete. now rewrite transport_healthy. Qed.

Lemma create_revision_absent (ks : gmap string entry) (k : string) :
  eval_cmp ks (CompareCreateRevision k EQUAL 0) = true <-> ks !! k = None.
Proof.
  simpl. destruct (ks !! k) as [e|]; simpl; split; intros H; try reflexivity; discriminate.
Qed.

(** A request that is dropped on the way is answered with the error, and
    the store is not touched. *)
Lemma transport_dropped {A} (run : Client -> A * Client) (c : Client)
    (e : error) (rest : list (option fault)) :
  faults c = Some (Dropped e) :: rest ->
  Etcd.transport run c = (Err e, MkClient (revision c) (keyspace c) rest).
Proof. unfold Etcd.transport. now intros ->. Qed.

(** A request whose reply is lost is answered with the error as well, but
    the store has applied it. *)
Lemma transport_reply_lost {A} (run : Client -> A * Client) (c : Client)
    (e : error) (rest : list (option fault)) :
  faults c = Some (ReplyLost e) :: rest ->
  Etcd.transport run c
  = (Err e, snd (run (MkClient (revision c) (keyspace c) rest))).
Proof. unfold Etcd.transport. intros ->. now destruct (run _). Qed.

(** The first call of [Delete] is a read: however it fails, the error is
    returned and nothing has been deleted. *)
Lemma Delete_fault (c : Client) (username : string)
    (f : fault) (rest : list (option fault)) :
  faults c = Some f :: rest ->
  UserModel.Delete username c
  = (Err (fault_error f), MkClient (revision c) (keyspace c) rest).
Proof.
  intros H. unfold UserModel.Delete, bind, Etcd.Get.
  destruct f as [e|e].
  - now rewrite (transport_dropped _ _ _ _ H).
  - now rewrite (transport_reply_lost _ _ _ _ H).
Qed.

End client_facts.

(** ** Key paths *)

Section path_facts.

Import globals.

Lemma admin_path_ne (u : string) : GetUserAdminPath u <> GetUserPath u.
Proof. unfold GetUserAdminPath. apply app_ne_self. discriminate. Qed.

Lemma hashed_path_ne (u : string) : GetUserHashedPasswordPath u <> GetUserPath u.
Proof. unfold GetUserHashedPasswordPath. apply app_ne_self. discriminate. Qed.

Lemma user_path_prefix (u : string) :
  String.prefix "sqlpipe/data/users/" (GetUserPath u) = true.
Proof. apply prefix_app. Qed.

End path_facts.

(** ** Bootstrap creation *)

Section insert_facts.

Import globals UserModel.

Lemma Insert_healthy (newUser : User) (c : Client) :
  healthy c ->
  Insert newUser c =
  match keyspace c !! GetUserPath (Username newUser) with
  | None =>
      (Ok tt, MkClient (Pos.succ (revision c))
                (inserted (keyspace c) (Pos.succ (revision c)) newUser) [])
  | Some _ => (Err ErrDuplicateUsername, c)
  end.
Proof.
  intros H. unfold Insert, bind. rewrite Txn_healthy by exact H.
  cbv zeta. unfold forallb.
  destruct (keyspace c !! GetUserPath (Username newUser)) as [e|] eqn:Hk.
  - assert (Hc : eval_cmp (keyspace c)
        (CompareCreateRevision (GetUserPath (Username newUser)) EQUAL 0) = false).
    { simpl. now rewrite Hk. }
    rewrite Hc. simpl. unfold fail, Etcd.commit. simpl.
    destruct c as [r ks fs]. unfold healthy in H. simpl in *. now subst.
  - assert (Hc : eval_cmp (keyspace c)
        (CompareCreateRevision (GetUserPath (Username newUser)) EQUAL 0) = true).
    { now apply create_revision_absent. }
    rewrite Hc. simpl. unfold ret, Etcd.commit. simpl.
    unfold healthy in H. now rewrite H.
Qed.

Lemma inserted_marker (ks : gmap string entry) (r : positive) (newUser : User) :
  exists e, inserted ks r newUser !! GetUserPath (Username newUser) = Some e
            /\ e_value e = "".
Proof.
  unfold inserted.
  rewrite put_lookup, decide_False by apply admin_path_ne.
  rewrite put_lookup, decide_False by apply hashed_path_ne.
  apply put_value.
Qed.

End insert_facts.

(** ** Printing and parsing integers *)

Section strconv_facts.

Import strconv.

Lemma digit_char_code (d : Z) :
  0 <= d < 10 -> Z.of_N (N_of_ascii (digit_char d)) = 48 + d.
Proof.
  intros H. unfold digit_char. rewrite N_ascii_embedding; lia.
Qed.

Lemma digit_char_is_digit (d : Z) : 0 <= d < 10 -> is_digit (digit_char d) = true.
Proof.
  intros H. unfold is_digit. rewrite digit_char_code by exact H.
  apply andb_true_intro. split; apply Z.leb_le; lia.
Qed.

Lemma digit_char_val (d : Z) : 0 <= d < 10 -> digit_val (digit_char d) = d.
Proof. intros H. unfold digit_val. rewrite digit_char_code by exact H. lia. Qed.

Lemma is_digit_not_sign (c : ascii) :
  is_digit c = true -> Ascii.eqb c "+" = false /\ Ascii.eqb c "-" = false.
Proof.
  intros H. split.
  - destruct (Ascii.eqb c "+") eqn:E; [|reflexivity].
    apply Ascii.eqb_eq in E. subst c. discriminate H.
  - destruct (Ascii.eqb c "-") eqn:E; [|reflexivity].
    apply Ascii.eqb_eq in E. subst c. discriminate H.
Qed.

(** One turn of the digit loop on a digit that fits. *)
Lemma ParseUint_loop_digit (s0 : string) (m d : Z) (rest : string) :
  0 <= d < 10 -> 0 <= m -> m * 10 + d <= maxUint64 ->
  ParseUint_loop s0 m (String (digit_char d) rest) = ParseUint_loop s0 (m * 10 + d) rest.
Proof.
  intros Hd Hm Hfit. simpl.
  rewrite digit_char_is_digit, digit_char_val by exact Hd. simpl.
  assert (Hcut : (maxUint64 / 10 + 1 <=? m) = false).
  { apply Z.leb_gt. unfold maxUint64 in *.
    assert (m <= (2 ^ 64 - 1) / 10) by (apply Z.div_le_lower_bound; lia). lia. }
  rewrite Hcut.
  assert (Hmax : (maxUint64 <? m * 10 + d) = false) by (apply Z.ltb_ge; lia).
  now rewrite Hmax.
Qed.

(** Reading back the digits that the printing loop puts in front of [acc]. *)
Lemma ParseUint_loop_FormatUint_loop (fuel : nat) :
  forall (n : Z) (acc s0 : string),
    0 <= n -> n < 10 ^ Z.of_nat fuel -> n <= maxUint64 ->
    ParseUint_loop s0 0 (FormatUint_loop fuel n acc) = ParseUint_loop s0 n acc.
Proof.
  induction fuel as [|fuel IH]; intros n acc s0 Hn Hlt Hmax.
  - simpl in *. assert (n = 0) by lia. now subst.
  - cbn [FormatUint_loop].
    assert (Hmod : 0 <= n mod 10 < 10) by (apply Z.mod_pos_bound; lia).
    destruct (n <? 10) eqn:Hsmall.
    + apply Z.ltb_lt in Hsmall.
      rewrite Z.mod_small by lia.
      now rewrite ParseUint_loop_digit by lia.
    + apply Z.ltb_ge in Hsmall.
      assert (Hdiv : n = n / 10 * 10 + n mod 10).
      { rewrite (Z.div_mod n 10) at 1 by lia. lia. }
      assert (Hq : 0 <= n / 10) by (apply Z.div_pos; lia).
      rewrite IH.
      * rewrite ParseUint_loop_digit by lia. now rewrite <- Hdiv.
      * exact Hq.
      * apply Z.div_lt_upper_bound; [lia|].
        rewrite Nat2Z.inj_succ, Z.pow_succ_r in Hlt by lia. lia.
      * lia.
Qed.

Lemma FormatUint_loop_head (fuel : nat) :
  forall (n : Z) (acc : string),
    0 <= n ->
    exists c r, FormatUint_loop (S fuel) n acc = String c r /\ is_digit c = true.
Proof.
  induction fuel as [|fuel IH]; intros n acc Hn.
  - assert (Hmod : 0 <= n mod 10 < 10) by (apply Z.mod_pos_bound; lia).
    exists (digit_char (n mod 10)), acc. split.
    + cbn [FormatUint_loop]. now destruct (n <? 10).
    + now apply digit_char_is_digit.
  - assert (Hmod : 0 <= n mod 10 < 10) by (apply Z.mod_pos_bound; lia).
    cbn [FormatUint_loop]. destruct (n <? 10).
    + exists (digit_char (n mod 10)), acc. split; [reflexivity|].
      now apply digit_char_is_digit.
    + apply (IH (n / 10)). apply Z.div_pos; lia.
Qed.

Lemma fuel_enough (n : Z) : 0 <= n -> n < 10 ^ Z.of_nat (S (Z.to_nat (Z.log2 n))).
Proof.
  intros Hn. rewrite Nat2Z.inj_succ, Z2Nat.id by apply Z.log2_nonneg.
  destruct (Z.eq_dec n 0) as [->|Hne].
  - simpl. lia.
  - assert (H2 : n < 2 ^ Z.succ (Z.log2 n)) by (apply Z.log2_spec; lia).
    assert (H10 : 2 ^ Z.succ (Z.log2 n) <= 10 ^ Z.succ (Z.log2 n)).
    { apply Z.pow_le_mono_l. lia. }
    lia.
Qed.

Lemma ParseUint_FormatUint (n : Z) :
  0 <= n <= maxUint64 -> ParseUint (FormatUint n) = Ok n.
Proof.
  intros [Hn Hmax].
  destruct (FormatUint_loop_head (Z.to_nat (Z.log2 n)) n "" Hn) as (c & r & Heq & _).
  fold (FormatUint n) in Heq.
  assert (Hloop : ParseUint (FormatUint n) = ParseUint_loop (FormatUint n) 0 (FormatUint n)).
  { unfold ParseUint. now rewrite Heq. }
  rewrite Hloop. unfold FormatUint at 2.
  rewrite ParseUint_loop_FormatUint_loop; auto using fuel_enough.
Qed.

(** [ParseInt] reads back what [FormatInt] prints for an int64. *)
Lemma ParseInt_FormatInt (i : Z) :
  - 2 ^ 63 <= i < 2 ^ 63 -> ParseInt (FormatInt i) = Ok i.
Proof.
  intros Hi. unfold FormatInt. destruct (i <? 0) eqn:Hneg.
  - apply Z.ltb_lt in Hneg. unfold ParseInt.
    change (Ascii.eqb "-" "-") with true. rewrite orb_true_r.
    rewrite ParseUint_FormatUint by (unfold maxUint64; lia).
    cbn [negb andb].
    assert (Hc : (2 ^ 63 <? - i) = false) by (apply Z.ltb_ge; lia).
    rewrite Hc. f_equal. lia.
  - apply Z.ltb_ge in Hneg.
    destruct (FormatUint_loop_head (Z.to_nat (Z.log2 i)) i "" Hneg) as (c & r & Heq & Hd).
    fold (FormatUint i) in Heq.
    destruct (is_digit_not_sign c Hd) as [Hplus Hminus].
    unfold ParseInt. rewrite Heq. rewrite Hplus, Hminus. cbn [orb].
    rewrite <- Heq. rewrite ParseUint_FormatUint by (unfold maxUint64; lia).
    cbn [negb andb].
    assert (Hc : (2 ^ 63 <=? i) = false) by (apply Z.leb_gt; lia).
    now rewrite Hc.
Qed.

End strconv_facts.

(** ** Authenticated creation *)

Section insert_check_token_facts.

Import globals UserModel.

#[local] Arguments strconv.ParseInt : simpl never.
#[local] Arguments hash_hex : simpl never.
#[local] Arguments fmt.Sprint_int64 : simpl never.

Lemma InsertCheckToken_failed (c : Client) (now_txn now_check : Z) (newUser callingUser : User) :
  healthy c ->
  creation_allowed (keyspace c) now_txn newUser callingUser = false ->
  fst (InsertCheckToken now_txn now_check newUser callingUser c) =
  diagnose
    (keyspace c !! GetUserTokenPath (Username callingUser)
                     (hash_hex (bytes_of_string (AuthToken callingUser))))
    (keyspace c !! GetUserPath (Username newUser)) now_check.
Proof.
  intros Hc Hfail. unfold InsertCheckToken, creation_allowed in *.
  set (tp := GetUserTokenPath _ _) in *.
  set (up := GetUserPath _) in *.
  unfold bind. rewrite Txn_healthy by exact Hc. cbv zeta.
  rewrite Hfail. cbn [apply_ops apply_op].
  unfold response_range, bind, lift, diagnose, fail, panic.
  destruct (keyspace c !! tp) as [et|] eqn:Htok;
    [rewrite (range_one_Some _ _ _ Htok) | rewrite (range_one_None _ _ Htok)];
    (destruct (keyspace c !! up) as [ea|] eqn:Hacc;
      [rewrite (range_one_Some _ _ _ Hacc) | rewrite (range_one_None _ _ Hacc)]);
    simpl; try reflexivity;
    destruct (strconv.ParseInt (e_value et)) as [expiry|e|m]; simpl; try reflexivity;
    destruct (expiry <? now_check); reflexivity.
Qed.

(** A token whose stored expiry is the current second fails the strict
    comparison of the transaction. *)
Lemma expiring_now_not_allowed (ks : gmap string entry) (now : Z)
    (newUser callingUser : User) (et : entry) :
  ks !! GetUserTokenPath (Username callingUser)
          (hash_hex (bytes_of_string (AuthToken callingUser))) = Some et ->
  e_value et = fmt.Sprint_int64 now ->
  creation_allowed ks now newUser callingUser = false.
Proof.
  intros Htok Hval. unfold creation_allowed.
  set (tp := GetUserTokenPath _ _) in *.
  cbn [forallb eval_cmp]. rewrite Htok, Hval, string_compare_refl.
  cbn [compare_result]. now rewrite andb_false_r.
Qed.

(** The success branch: the three puts at one revision, and the scrubbed
    new account as the answer. *)
Lemma InsertCheckToken_allowed (c : Client) (now_txn now_check : Z)
    (newUser callingUser : User) :
  healthy c ->
  creation_allowed (keyspace c) now_txn newUser callingUser = true ->
  InsertCheckToken now_txn now_check newUser callingUser c =
  (Ok (Scrub newUser),
   MkClient (Pos.succ (revision c))
     (inserted (keyspace c) (Pos.succ (revision c)) newUser) []).
Proof.
  intros Hc Hok. unfold InsertCheckToken, creation_allowed in *.
  set (tp := GetUserTokenPath _ _) in *.
  unfold bind. rewrite Txn_healthy by exact Hc. cbv zeta.
  rewrite Hok. simpl. unfold ret, Etcd.commit, inserted. simpl.
  unfold healthy in Hc. now rewrite Hc.
Qed.

End insert_check_token_facts.

(** The expiry condition of the transaction compares text.  An expiry with
    more digits than the clock reading can compare as smaller although it
    lies in the future, and the creation then ends in the abort; an expiry
    with fewer digits can compare as greater although it lies in the past,
    and the creation goes through. *)
Example InsertCheckToken_longer_expiry :
  creation_allowed (keyspace (Sample.with_token 10000000000)) 1700000000
    Sample.bob Sample.caller = false /\
  fst (UserModel.InsertCheckToken 1700000000 1700000000 Sample.bob Sample.caller
         (Sample.with_token 10000000000))
  = Panic "inserting user failed with an unknown error".
Proof. split; run. Qed.

Example InsertCheckToken_shorter_expiry :
  fst (UserModel.InsertCheckToken 1700000000 1700000000 Sample.bob Sample.caller
         (Sample.with_token 999999999))
  = Ok (MkScrubbedUser "bob_1" false).
Proof. run. Qed.

(** C2 (amended).  Once the transaction of [InsertCheckToken] has failed on
    a store that answers, the failure branch classifies the cause in this
    order: [ErrInvalidCredentials] when the caller's token key is absent;
    else the error of [strconv.ParseInt] when the stored expiry is not a
    decimal 64-bit integer; else [ErrInvalidCredentials] when the expiry is
    strictly less than the clock reading of the branch; else, when the
    expiry is strictly greater than that reading and the target account key
    exists, [ErrDuplicateUsername]. *)
Theorem InsertCheckToken_failure_classified
    (c : Client) (now_txn now_check : Z) (newUser callingUser : User) :
  healthy c ->
  creation_allowed (keyspace c) now_txn newUser callingUser = false ->
  let token := keyspace c !! globals.GetUserTokenPath (Username callingUser)
                 (UserModel.hash_hex (bytes_of_string (AuthToken callingUser))) in
  let account := keyspace c !! globals.GetUserPath (Username newUser) in
  let answer := fst (UserModel.InsertCheckToken now_txn now_check newUser callingUser c) in
  (token = None -> answer = Err ErrInvalidCredentials) /\
  (forall et e, token = Some et -> strconv.ParseInt (e_value et) = Err e ->
                answer = Err e) /\
  (forall et expiry, token = Some et -> strconv.ParseInt (e_value et) = Ok expiry ->
                     expiry < now_check -> answer = Err ErrInvalidCredentials) /\
  (forall et expiry ea, token = Some et -> strconv.ParseInt (e_value et) = Ok expiry ->
                        now_check < expiry -> account = Some ea ->
                        answer = Err ErrDuplicateUsername).
Proof.
  intros Hc Hfail token account answer. subst answer.
  rewrite InsertCheckToken_failed by assumption.
  fold token. fold account. unfold diagnose.
  repeat split.
  - intros ->. reflexivity.
  - intros et e -> ->. reflexivity.
  - intros et expiry -> -> Hlt.
    assert (H : (expiry <? now_check) = true) by now apply Z.ltb_lt.
    now rewrite H.
  - intros et expiry ea -> -> Hgt ->.
    assert (H : (expiry <? now_check) = false) by (apply Z.ltb_ge; lia).
    now rewrite H.
Qed.

(** The classification at work: alice, holding a token that is good for
    another minute, asks for an account that exists. *)
Lemma InsertCheckToken_failure_classified_witness :
  fst (UserModel.InsertCheckToken 1700000000 1700000000 Sample.alice Sample.caller
         (Sample.with_token 1700000060)) = Err ErrDuplicateUsername.
Proof.
  destruct (InsertCheckToken_failure_classified
              (Sample.with_token 1700000060) 1700000000 1700000000
              Sample.alice Sample.caller)
    as (_ & _ & _ & Hdup).
  - reflexivity.
  - run.
  - apply (Hdup (Entry "1700000060" 3 3 1) 1700000060 (Entry "" 2 2 1)).
    + run.
    + run.
    + lia.
    + run.
Defined.

(** C2 as stated fails on two inputs.  A token pair whose value is not a
    timestamp makes the failure branch return the parse error, which is none
    of the named errors; and a token whose expiry is the current second is
    passed on to the uniqueness check, which answers
    [ErrDuplicateUsername] where the order of the claim asks for
    [ErrInvalidCredentials]. *)
Lemma InsertCheckToken_failure_not_as_claimed :
  (creation_allowed (keyspace Sample.with_malformed_token) 1700000000
     Sample.alice Sample.caller = false /\
   fst (UserModel.InsertCheckToken 1700000000 1700000000 Sample.alice Sample.caller
          Sample.with_malformed_token) = Err (ErrSyntax "ParseInt" "never")) /\
  (creation_allowed (keyspace (Sample.with_token 1700000000)) 1700000000
     Sample.alice Sample.caller = false /\
   fst (UserModel.InsertCheckToken 1700000000 1700000000 Sample.alice Sample.caller
          (Sample.with_token 1700000000)) = Err ErrDuplicateUsername).
Proof. repeat split; run. Qed.

(** The boundary case in general: token present, expiry equal to the
    current second, target account present. *)
Lemma InsertCheckToken_expiring_now_duplicate
    (c : Client) (now : Z) (newUser callingUser : User) (et ea : entry) :
  healthy c ->
  - 2 ^ 63 <= now < 2 ^ 63 ->
  keyspace c !! globals.GetUserTokenPath (Username callingUser)
      (UserModel.hash_hex (bytes_of_string (AuthToken callingUser))) = Some et ->
  e_value et = fmt.Sprint_int64 now ->
  keyspace c !! globals.GetUserPath (Username newUser) = Some ea ->
  fst (UserModel.InsertCheckToken now now newUser callingUser c) = Err ErrDuplicateUsername.
Proof.
  intros Hc Hnow Htok Hval Hacc.
  rewrite InsertCheckToken_failed by eauto using expiring_now_not_allowed.
  rewrite Htok, Hacc. unfold diagnose. rewrite Hval.
  unfold fmt.Sprint_int64. rewrite ParseInt_FormatInt by exact Hnow.
  now rewrite Z.ltb_irrefl.
Qed.

(** C7 (code defect).  The abort with the unknown error is reachable: when
    the caller's token key holds the current second as its expiry and the
    target account key is absent, the transaction fails (the expiry is not
    strictly greater than now), the failure branch finds the token present,
    its expiry not less than now and the target absent, and
    [InsertCheckToken] panics. *)
Theorem InsertCheckToken_unknown_error_reachable
    (c : Client) (now : Z) (newUser callingUser : User) (et : entry) :
  healthy c ->
  - 2 ^ 63 <= now < 2 ^ 63 ->
  keyspace c !! globals.GetUserTokenPath (Username callingUser)
      (UserModel.hash_hex (bytes_of_string (AuthToken callingUser))) = Some et ->
  e_value et = fmt.Sprint_int64 now ->
  keyspace c !! globals.GetUserPath (Username newUser) = None ->
  fst (UserModel.InsertCheckToken now now newUser callingUser c)
  = Panic "inserting user failed with an unknown error".
Proof.
  intros Hc Hnow Htok Hval Hacc.
  rewrite InsertCheckToken_failed by eauto using expiring_now_not_allowed.
  rewrite Htok, Hacc. unfold diagnose. rewrite Hval.
  unfold fmt.Sprint_int64. rewrite ParseInt_FormatInt by exact Hnow.
  now rewrite Z.ltb_irrefl.
Qed.

Lemma InsertCheckToken_unknown_error_reachable_witness :
  fst (UserModel.InsertCheckToken 1700000000 1700000000 Sample.bob Sample.caller
         (Sample.with_token 1700000000))
  = Panic "inserting user failed with an unknown error".
Proof.
  eapply (InsertCheckToken_unknown_error_reachable
            (Sample.with_token 1700000000) 1700000000 Sample.bob Sample.caller
            (Entry "1700000000" 3 3 1)).
  - reflexivity.
  - lia.
  - run.
  - reflexivity.
  - run.
Defined.

(** ** Token validation *)

Section check_token_facts.

Import globals UserModel.
Context `{J : JSON}.

#[local] Arguments strconv.ParseInt : simpl never.

(** [GetUserCheckToken] on a store that answers, read off the two keys of
    its transaction. *)
Lemma GetUserCheckToken_healthy (c : Client) (now : Z) (username inputToken : string) :
  healthy c ->
  fst (GetUserCheckToken now username inputToken c) =
  match keyspace c !! GetUserPath username,
        keyspace c !! (GetUserPath username +:+ "/tokens") with
  | Some ea, Some et =>
      match Unmarshal_Token (e_value et) with
      | Ok token =>
          match strconv.ParseInt (ExpiryUnixTime token) with
          | Ok expiry =>
              if expiry <? now then Err ErrRecordNotFound
              else Unmarshal_ScrubbedUser (e_value ea)
          | Err e => Err e
          | Panic m => Panic m
          end
      | Err e => Err e
      | Panic m => Panic m
      end
  | _, _ => Err ErrRecordNotFound
  end.
Proof.
  intros Hc. unfold GetUserCheckToken.
  set (up := GetUserPath username). set (tp := up +:+ "/tokens").
  unfold bind. rewrite Txn_healthy by exact Hc. cbv zeta.
  cbn [forallb eval_cmp].
  destruct (keyspace c !! up) as [ea|] eqn:Hacc; [|reflexivity].
  destruct (keyspace c !! tp) as [et|] eqn:Htok; [|reflexivity].
  cbn [compare_result Z.compare andb apply_ops apply_op].
  rewrite (range_one_Some _ _ _ Htok), (range_one_Some _ _ _ Hacc).
  unfold response_range, bind, lift, fail. simpl.
  destruct (Unmarshal_Token (e_value et)) as [token|e|m]; simpl; try reflexivity.
  destruct (strconv.ParseInt (ExpiryUnixTime token)) as [expiry|e|m]; simpl; try reflexivity.
  destruct (expiry <? now); simpl; [reflexivity|].
  now destruct (Unmarshal_ScrubbedUser (e_value ea)).
Qed.

(** A stored token record with expiry [t] under the key the method reads:
    the answer at every reading of the clock. *)
Lemma GetUserCheckToken_expiry (c : Client) (now t : Z) (username inputToken : string)
    (et ea : entry) (token : Token) (su : ScrubbedUser) :
  healthy c ->
  keyspace c !! (GetUserPath username +:+ "/tokens") = Some et ->
  keyspace c !! GetUserPath username = Some ea ->
  Unmarshal_Token (e_value et) = Ok token ->
  strconv.ParseInt (ExpiryUnixTime token) = Ok t ->
  Unmarshal_ScrubbedUser (e_value ea) = Ok su ->
  fst (GetUserCheckToken now username inputToken c) =
  if t <? now then Err ErrRecordNotFound else Ok su.
Proof.
  intros Hc Htok Hacc Hdec Hparse Hsu.
  rewrite GetUserCheckToken_healthy by exact Hc.
  now rewrite Hacc, Htok, Hdec, Hparse, Hsu.
Qed.

(** Without a pair under the fixed key nothing validates, whatever is stored
    under the hashed token keys. *)
Lemma GetUserCheckToken_needs_fixed_key (c : Client) (now : Z) (username inputToken : string) :
  healthy c ->
  keyspace c !! (GetUserPath username +:+ "/tokens") = None ->
  fst (GetUserCheckToken now username inputToken c) = Err ErrRecordNotFound.
Proof.
  intros Hc Hnone. rewrite GetUserCheckToken_healthy by exact Hc.
  rewrite Hnone. now destruct (keyspace c !! GetUserPath username).
Qed.

End check_token_facts.

(** C1 (code defect).  [GetUserCheckToken] never looks at the bearer token
    it is given: for every store, clock reading and username, any two
    tokens get the same answer and leave the same state.  Its transaction
    tests the fixed key [GetUserPath username +:+ "/tokens"], not a key
    derived from the hash of the token. *)
Theorem GetUserCheckToken_ignores_inputToken `{J : JSON}
    (c : Client) (now : Z) (username token1 token2 : string) :
  UserModel.GetUserCheckToken now username token1 c
  = UserModel.GetUserCheckToken now username token2 c.
Proof. reflexivity. Qed.

(** The two faces of that defect on a concrete store.  A valid token stored
    under its hashed key does not validate; a record under the fixed key
    validates whatever token the caller sends. *)
Example GetUserCheckToken_hashed_token_rejected :
  fst (UserModel.GetUserCheckToken 1700000000 "alice" "s3cr3t-bearer-token"
         (Sample.with_hashed_session 1700000060)) = Err ErrRecordNotFound.
Proof. run. Qed.

Example GetUserCheckToken_wrong_token_accepted :
  fst (UserModel.GetUserCheckToken 1700000000 "alice" "not the token"
         (Sample.with_session 1700000060)) = Ok (MkScrubbedUser "alice" true).
Proof. run. Qed.

(** C3 (code defect).  A token record with expiry [t] still validates at the
    clock reading [now = t]: the expiry test of [GetUserCheckToken] is
    [expiry < now], so the account is returned where a token that is no
    longer strictly in the future should be answered with
    [ErrRecordNotFound]. *)
Theorem GetUserCheckToken_valid_at_expiry `{J : JSON}
    (c : Client) (t : Z) (username inputToken : string)
    (et ea : entry) (token : Token) (su : ScrubbedUser) :
  healthy c ->
  keyspace c !! (globals.GetUserPath username +:+ "/tokens") = Some et ->
  keyspace c !! globals.GetUserPath username = Some ea ->
  Unmarshal_Token (e_value et) = Ok token ->
  strconv.ParseInt (ExpiryUnixTime token) = Ok t ->
  Unmarshal_ScrubbedUser (e_value ea) = Ok su ->
  fst (UserModel.GetUserCheckToken t username inputToken c) = Ok su.
Proof.
  intros Hc Htok Hacc Hdec Hparse Hsu.
  rewrite (GetUserCheckToken_expiry c t t username inputToken et ea token su) by assumption.
  now rewrite Z.ltb_irrefl.
Qed.

Lemma GetUserCheckToken_valid_at_expiry_witness :
  fst (UserModel.GetUserCheckToken 1700000060 "alice" "s3cr3t-bearer-token"
         (Sample.with_session 1700000060)) = Ok (MkScrubbedUser "alice" true).
Proof.
  eapply (GetUserCheckToken_valid_at_expiry (J := RefJSON.codec)
            (Sample.with_session 1700000060) 1700000060 "alice" "s3cr3t-bearer-token"
            (Entry (RefJSON.js "{'ExpiryUnixTime':'1700000060'}") 4 4 1)
            (Entry (RefJSON.js "{'username':'alice','_':'JDJhJDEyJGFsaWNlQmNyeXB0SGFzaA==','admin':true}") 2 3 2)
            (MkToken "1700000060")).
  - reflexivity.
  - run.
  - run.
  - run.
  - run.
  - run.
Defined.

(** The boundary is the only reading where the answer differs: before the
    expiry the token validates, after it the answer is not-found. *)
Lemma GetUserCheckToken_before_and_after `{J : JSON}
    (c : Client) (now t : Z) (username inputToken : string)
    (et ea : entry) (token : Token) (su : ScrubbedUser) :
  healthy c ->
  keyspace c !! (globals.GetUserPath username +:+ "/tokens") = Some et ->
  keyspace c !! globals.GetUserPath username = Some ea ->
  Unmarshal_Token (e_value et) = Ok token ->
  strconv.ParseInt (ExpiryUnixTime token) = Ok t ->
  Unmarshal_ScrubbedUser (e_value ea) = Ok su ->
  (now < t -> fst (UserModel.GetUserCheckToken now username inputToken c) = Ok su) /\
  (t < now -> fst (UserModel.GetUserCheckToken now username inputToken c) = Err ErrRecordNotFound).
Proof.
  intros Hc Htok Hacc Hdec Hparse Hsu.
  rewrite (GetUserCheckToken_expiry c now t username inputToken et ea token su) by assumption.
  split; intros Hlt.
  - assert (H : (t <? now) = false) by (apply Z.ltb_ge; lia). now rewrite H.
  - assert (H : (t <? now) = true) by (apply Z.ltb_lt; lia). now rewrite H.
Qed.

(** ** Bootstrap creation followed by a read *)

(** C5 (code defect).  After a successful [Insert] the account key holds the
    empty marker, and [Get] hands that value to the JSON decoder: for every
    decoder that rejects empty input the read fails with a decoding error
    instead of returning the scrubbed account. *)
Theorem Get_after_Insert_fails `{J : JSON} (c c' : Client) (newUser : User) :
  rejects_empty J ->
  healthy c ->
  UserModel.Insert newUser c = (Ok tt, c') ->
  fst (UserModel.Get (Username newUser) c') = Err unexpected_end.
Proof.
  intros (Hempty & _ & _) Hc Hins.
  rewrite Insert_healthy in Hins by exact Hc.
  destruct (keyspace c !! globals.GetUserPath (Username newUser)); [discriminate|].
  injection Hins as <-.
  destruct (inserted_marker (keyspace c) (Pos.succ (revision c)) newUser) as (e & He & Hv).
  unfold UserModel.Get, bind. rewrite Get_healthy by reflexivity.
  cbn [keyspace]. rewrite (range_one_Some _ _ _ He).
  unfold lift, fail. simpl. rewrite Hv, Hempty. reflexivity.
Qed.

Lemma Get_after_Insert_fails_witness :
  UserModel.Insert Sample.alice Sample.empty = (Ok tt, Sample.with_alice) /\
  fst (UserModel.Get "alice" Sample.with_alice) = Err unexpected_end.
Proof.
  assert (Hins : UserModel.Insert Sample.alice Sample.empty = (Ok tt, Sample.with_alice))
    by (run).
  split; [exact Hins|].
  apply (Get_after_Insert_fails (J := RefJSON.codec) Sample.empty Sample.with_alice Sample.alice).
  - repeat split.
  - reflexivity.
  - exact Hins.
Defined.

(** ** Reading the credential subtree *)

Section reassemble_facts.

Import globals UserModel.

Lemma reassemble_unmatched (kvs : list KeyValue) (user : User) :
  (forall kv, kv ∈ kvs -> Key kv <> "admin" /\ Key kv <> "hashed_password") ->
  reassemble kvs user = Ok user.
Proof.
  revert user. induction kvs as [|kv kvs IH]; intros user Hall; [reflexivity|].
  destruct (Hall kv) as [Ha Hh]; [left|].
  apply String.eqb_neq in Ha, Hh. cbn [reassemble]. rewrite Ha, Hh.
  apply IH. intros kv' Hin. apply Hall. now right.
Qed.

(** No key under an account prefix is one of the two case labels. *)
Lemma under_user_path (username k : string) :
  String.prefix (GetUserPath username) k = true ->
  k <> "admin" /\ k <> "hashed_password".
Proof.
  intros H. apply prefix_inv in H as [s ->]. unfold GetUserPath.
  rewrite string_app_assoc. split; discriminate.
Qed.

End reassemble_facts.

(** C6 (code defect).  [GetUserWithPassword] answers not-found exactly when
    the prefix read is empty, but it never reassembles anything: its switch
    compares the whole key of each pair with the bare labels, no key under
    an account prefix equals a label, and the account comes back with the
    admin flag false and no password hash whatever the child keys hold. *)
Theorem GetUserWithPassword_never_reassembles (c : Client) (username : string) :
  healthy c ->
  fst (UserModel.GetUserWithPassword username c) =
  if Count (range (keyspace c) (globals.GetUserPath username) true) =? 0
  then Err ErrRecordNotFound
  else Ok (MkUser username "" None "" false).
Proof.
  intros Hc. unfold UserModel.GetUserWithPassword, bind.
  rewrite Get_healthy by exact Hc.
  destruct (Count (range (keyspace c) (globals.GetUserPath username) true) =? 0);
    [reflexivity|].
  unfold lift. cbn [fst]. apply reassemble_unmatched.
  intros kv Hin. apply range_prefix_elem in Hin as (e & _ & Hp & _).
  exact (under_user_path _ _ Hp).
Qed.

Lemma GetUserWithPassword_never_reassembles_witness :
  (exists e, keyspace Sample.with_alice !! globals.GetUserAdminPath "alice" = Some e
             /\ e_value e = "true") /\
  fst (UserModel.GetUserWithPassword "alice" Sample.with_alice)
  = Ok (MkUser "alice" "" None "" false).
Proof.
  split.
  - exists (Entry "true" 2 2 1). split; run.
  - rewrite (GetUserWithPassword_never_reassembles Sample.with_alice "alice" eq_refl).
    run.
Defined.

(** ** Deletion *)

Section delete_facts.

Import globals UserModel.

Lemma Delete_healthy_run (c : Client) (username : string) :
  healthy c ->
  UserModel.Delete username c =
  if Count (range (keyspace c) (GetUserPath username) true) =? 0
  then (Err ErrRecordNotFound, c)
  else (Ok tt, Etcd.commit c (delete_range (keyspace c) (GetUserPath username) true)
                 [ResponseDeleteRange (Count (range (keyspace c) (GetUserPath username) true))]).
Proof.
  intros Hc. unfold UserModel.Delete, bind. rewrite Get_healthy by exact Hc.
  destruct (Count _ =? 0); [reflexivity|].
  now rewrite Delete_healthy.
Qed.

(** [Delete] answers not-found exactly when no stored key has the account
    key of the username as a prefix. *)
Lemma Delete_NotFound_iff (c : Client) (username : string) :
  healthy c ->
  fst (UserModel.Delete username c) = Err ErrRecordNotFound <->
  forall k, String.prefix (GetUserPath username) k = true -> keyspace c !! k = None.
Proof.
  intros Hc. rewrite Delete_healthy_run by exact Hc.
  rewrite <- range_prefix_empty.
  destruct (Count _ =? 0) eqn:E.
  - apply Z.eqb_eq in E. simpl. tauto.
  - apply Z.eqb_neq in E. simpl. split; [discriminate | tauto].
Qed.

(** After a delete that went through, a second delete of the same username
    answers not-found. *)
Lemma Delete_twice (c c' : Client) (username : string) :
  healthy c ->
  UserModel.Delete username c = (Ok tt, c') ->
  fst (UserModel.Delete username c') = Err ErrRecordNotFound.
Proof.
  intros Hc Hdel. rewrite Delete_healthy_run in Hdel by exact Hc.
  destruct (Count _ =? 0); [discriminate|]. injection Hdel as <-.
  apply Delete_NotFound_iff; [exact Hc|].
  intros k Hp. cbn [Etcd.commit keyspace].
  now rewrite delete_range_lookup, Hp.
Qed.

End delete_facts.

(** C8 (code defect).  Deleting a username that does not exist is not always
    answered with not-found: the existence check and the delete both range
    over every key that has the account key as a prefix, and the account
    key of a longer username has it.  In the store that holds alice2 alone
    there is no account alice; [Delete] of alice reports success and
    removes the subtree of alice2. *)
Theorem Delete_absent_username_removes_longer :
  keyspace Sample.with_alice2 !! globals.GetUserPath "alice" = None /\
  is_Some (keyspace Sample.with_alice2 !! globals.GetUserPath "alice2") /\
  fst (UserModel.Delete "alice" Sample.with_alice2) = Ok tt /\
  keyspace (snd (UserModel.Delete "alice" Sample.with_alice2))
    !! globals.GetUserPath "alice2" = None.
Proof.
  repeat split; try (run).
  exists (Entry "" 2 2 1). run.
Qed.

(** A timeout between the existence check and the delete: the error of the
    second call is returned, and it does not tell whether the subtree is
    still there.  It stays when the request was dropped, and it is gone when
    only the reply was lost. *)
Example Delete_second_call_times_out :
  let timeout := ErrEtcd "context deadline exceeded" in
  let dropped := MkClient (revision Sample.with_alice) (keyspace Sample.with_alice)
                   [None; Some (Dropped timeout)] in
  let unanswered := MkClient (revision Sample.with_alice) (keyspace Sample.with_alice)
                      [None; Some (ReplyLost timeout)] in
  fst (UserModel.Delete "alice" dropped) = Err timeout /\
  keyspace (snd (UserModel.Delete "alice" dropped)) = keyspace Sample.with_alice /\
  fst (UserModel.Delete "alice" unanswered) = Err timeout /\
  keyspace (snd (UserModel.Delete "alice" unanswered)) = ∅.
Proof. repeat split; run. Qed.

(** ** Listing *)

Section listing_facts.

Import globals UserModel.
Context `{J : JSON} `{Srt : sort.Sorter}.

Lemma drop_app (p t : string) : strings.drop (String.length p) (p +:+ t) = t.
Proof. induction p as [|a p IH]; [reflexivity | exact IH]. Qed.

Lemma prefix_nil (s : string) : String.prefix "" s = true.
Proof. destruct s; reflexivity. Qed.

Lemma Split_loop_nonempty (fuel : nat) (s sep : string) :
  (1 <= List.length (strings.Split_loop fuel s sep))%nat.
Proof.
  destruct fuel as [|fuel]; simpl; [lia|].
  destruct (strings.Index s sep); simpl; lia.
Qed.

(** A path that starts with the separator splits into an empty first
    segment and at least one more. *)
Lemma Split_leading_slash (s : string) :
  exists rest, strings.Split (String "/" s) "/" = "" :: rest /\ (1 <= List.length rest)%nat.
Proof.
  unfold strings.Split. cbn [String.length strings.Split_loop].
  assert (Hidx : strings.Index (String "/" s) "/" = Some 0%nat).
  { unfold strings.Index. cbn [String.index].
    assert (Hp : String.prefix "/" (String "/" s) = true).
    { cbn [String.prefix]. destruct (ascii_dec "/" "/"); [apply prefix_nil | congruence]. }
    now rewrite Hp. }
  rewrite Hidx. eexists. split; [reflexivity|]. apply Split_loop_nonempty.
Qed.

(** Every key the key-path builder produces is passed over by the scan as a
    child node. *)
Lemma scan_skips_paths (username : string) (admin : option bool) (kvs : list KeyValue) :
  forall (users : list ScrubbedUser) (totalRecords : Z),
    (forall kv, kv ∈ kvs -> String.prefix "sqlpipe/data/users/" (Key kv) = true) ->
    scan username admin kvs users totalRecords = Ok (users, totalRecords).
Proof.
  induction kvs as [|kv kvs IH]; intros users total Hall; [reflexivity|].
  destruct (prefix_inv _ _ (Hall kv ltac:(left))) as [s Hs].
  cbn [scan]. rewrite Hs.
  assert (Htrim : strings.TrimPrefix ("sqlpipe/data/users/" +:+ s) "sqlpipe/data/users"
                  = String "/" s).
  { unfold strings.TrimPrefix, strings.HasPrefix.
    change ("sqlpipe/data/users/" +:+ s) with ("sqlpipe/data/users" +:+ String "/" s).
    now rewrite prefix_app, drop_app. }
  rewrite Htrim.
  destruct (Split_leading_slash s) as (rest & -> & Hlen).
  cbn [index nth_error List.length].
  assert (Hmany : (1 <? Z.of_nat (S (List.length rest))) = true) by (apply Z.ltb_lt; lia).
  rewrite Hmany. apply IH. intros kv' Hin. apply Hall. now right.
Qed.

(** The scan counts what it accumulates. *)
Lemma scan_total (username : string) (admin : option bool) (kvs : list KeyValue) :
  forall (users users' : list ScrubbedUser) (total total' : Z),
    scan username admin kvs users total = Ok (users', total') ->
    total' - total = Z.of_nat (List.length users') - Z.of_nat (List.length users).
Proof.
  induction kvs as [|kv kvs IH]; intros users users' total total' H.
  - injection H as <- <-. lia.
  - cbn [scan] in H.
    destruct (index _ 0) as [topLevel|e|m]; try discriminate.
    destruct (1 <? _); [now apply IH|].
    destruct (_ && _); [now apply IH|].
    destruct (Unmarshal_User (Value kv)) as [user|e|m]; try discriminate.
    destruct (match admin with Some a => _ | None => false end); [now apply IH|].
    apply IH in H. rewrite List.length_app in H. simpl in H. lia.
Qed.

Lemma sort_users_nil (column : string) : sort_users column [] = [].
Proof.
  unfold sort_users.
  destruct (String.eqb column "-username");
    apply Permutation_nil; symmetry; apply sort.Slice_Permutation.
Qed.

Lemma sort_users_Permutation (column : string) (users : list ScrubbedUser) :
  sort_users column users ≡ₚ users.
Proof.
  unfold sort_users.
  destruct (String.eqb column "-username"); apply sort.Slice_Permutation.
Qed.

(** Both comparisons of [sort_users] are strict weak orders, so its result
    is sorted: in the ascending order no account is followed by one with a
    smaller username, in the descending order by none with a greater one. *)
Lemma sort_users_ascending (column : string) (users : list ScrubbedUser) :
  String.eqb column "-username" = false ->
  Sorted (fun a b => String.ltb (Scrubbed_Username b) (Scrubbed_Username a) = false)
         (sort_users column users).
Proof.
  intros Hcol. unfold sort_users. rewrite Hcol.
  apply (sort.Slice_Sorted
           (fun a b => String.ltb (Scrubbed_Username a) (Scrubbed_Username b))).
  - intros a b. apply ltb_asym.
  - intros a b c. apply not_ltb_trans.
Qed.

Lemma sort_users_descending (users : list ScrubbedUser) :
  Sorted (fun a b => String.ltb (Scrubbed_Username a) (Scrubbed_Username b) = false)
         (sort_users "-username" users).
Proof.
  unfold sort_users. cbn [String.eqb Ascii.eqb Bool.eqb].
  apply (sort.Slice_Sorted
           (fun a b => String.ltb (Scrubbed_Username b) (Scrubbed_Username a))).
  - intros a b. apply ltb_asym.
  - intros a b c Hab Hbc. exact (not_ltb_trans _ _ _ Hbc Hab).
Qed.

(** The writers of the package keep the layout. *)
Lemma put_keeps_layout (ks : gmap string entry) (r : positive) (k v : string) :
  key_path_layout ks ->
  String.prefix "sqlpipe/data/users/" k = true ->
  key_path_layout (put ks r k v).
Proof.
  intros Hks Hk k' Hsome Hp. rewrite put_lookup in Hsome.
  destruct (decide (k = k')) as [<-|Hne]; [exact Hk | now apply Hks].
Qed.

Lemma empty_layout : key_path_layout ∅.
Proof. intros k [e He]. rewrite lookup_empty in He. discriminate. Qed.

Lemma Insert_keeps_layout (c : Client) (newUser : User) :
  healthy c ->
  key_path_layout (keyspace c) ->
  key_path_layout (keyspace (snd (Insert newUser c))).
Proof.
  intros Hc Hks. rewrite Insert_healthy by exact Hc.
  destruct (keyspace c !! GetUserPath (Username newUser)); [exact Hks|].
  cbn [snd keyspace]. unfold inserted.
  repeat apply put_keeps_layout; try exact Hks.
  - apply user_path_prefix.
  - unfold GetUserHashedPasswordPath, GetUserPath. rewrite string_app_assoc.
    apply prefix_app.
  - unfold GetUserAdminPath, GetUserPath. rewrite string_app_assoc.
    apply prefix_app.
Qed.

Lemma UpdateNoLock_keeps_layout (c : Client) (user : User) :
  healthy c ->
  key_path_layout (keyspace c) ->
  key_path_layout (keyspace (snd (UpdateNoLock user c))).
Proof.
  intros Hc Hks. unfold UpdateNoLock. rewrite Put_healthy by exact Hc.
  cbn [snd Etcd.commit keyspace].
  apply put_keeps_layout; [exact Hks | apply user_path_prefix].
Qed.

End listing_facts.

(** C4 (code defect).  [GetAll] strips the prefix without its separator, so
    every key of the key-path builder keeps a leading separator, splits into
    more than one level and is passed over as a child node.  On a store
    whose keys under the scan prefix all come from the key-path builder the
    listing is empty, whatever accounts were created and whatever the
    filters are. *)
Theorem GetAll_lists_no_account `{J : JSON} `{P : Pagination} `{Srt : sort.Sorter}
    (c : Client) (username : string) (admin : option bool) (filters : Filters) :
  healthy c ->
  key_path_layout (keyspace c) ->
  0 <= offset filters ->
  fst (UserModel.GetAll username admin filters c)
  = Ok ([], calculateMetadata 0 (Page filters) (PageSize filters)).
Proof.
  intros Hc Hlayout Hoff. unfold UserModel.GetAll, bind.
  rewrite Get_healthy by exact Hc. unfold lift.
  rewrite scan_skips_paths.
  - rewrite sort_users_nil.
    destruct (0 <? offset filters) eqn:Hpos; [reflexivity|].
    assert (Hfuel : Z.to_nat (pkg.Min (wrap64 (offset filters + limit filters)) 0
                              - offset filters) = 0%nat).
    { unfold pkg.Min. lia. }
    rewrite Hfuel. reflexivity.
  - intros kv Hin. apply range_prefix_elem in Hin as (e & Hk & Hp & _).
    apply Hlayout; eauto.
Qed.

Lemma laid_out_spec (ks : gmap string entry) :
  laid_out ks = true -> key_path_layout ks.
Proof.
  unfold laid_out. rewrite forallb_forall. intros Hall k [e Hk] Hp.
  apply (Hall (kv_of k e)). apply list_elem_of_In, range_prefix_elem.
  exists e. simpl. auto.
Qed.

Lemma GetAll_lists_no_account_witness :
  fst (UserModel.Get "alice" Sample.with_record) = Ok (MkScrubbedUser "alice" true) /\
  fst (UserModel.GetAll "" None (RefPagination.MkFilters 1 10 "username") Sample.with_record)
  = Ok ([], RefPagination.MkMetadata 1 10 0).
Proof.
  split; [run|].
  apply (GetAll_lists_no_account (J := RefJSON.codec) (P := RefPagination.paging)
           Sample.with_record "" None (RefPagination.MkFilters 1 10 "username")).
  - reflexivity.
  - apply laid_out_spec. run.
  - vm_compute. discriminate.
Defined.

(** The early return of [GetAll]: when the offset of the requested page
    exceeds the number the scan has accumulated, the method returns the
    empty page with the metadata of that number and no error. *)
Lemma GetAll_early_return `{J : JSON} `{P : Pagination} `{Srt : sort.Sorter}
    (c : Client) (username : string) (admin : option bool) (filters : Filters)
    (users : list ScrubbedUser) (totalRecords : Z) :
  healthy c ->
  UserModel.scan username admin (Kvs (range (keyspace c) "sqlpipe/data/users" true)) [] 0
  = Ok (users, totalRecords) ->
  totalRecords < offset filters ->
  fst (UserModel.GetAll username admin filters c)
  = Ok ([], calculateMetadata totalRecords (Page filters) (PageSize filters))
  /\ totalRecords = Z.of_nat (List.length users).
Proof.
  intros Hc Hscan Hoff. split.
  - unfold UserModel.GetAll, bind. rewrite Get_healthy by exact Hc.
    unfold lift. rewrite Hscan.
    assert (H : (totalRecords <? offset filters) = true) by now apply Z.ltb_lt.
    now rewrite H.
  - apply scan_total in Hscan. simpl in Hscan. lia.
Qed.

(** C9 (code defect).  The total [GetAll] compares the offset with, and
    hands to the metadata, is the number its scan accumulated, and the scan
    passes over every account key of the key-path builder (the defect of
    C4): it is not the number of matching accounts.  On the store with the
    three accounts alice, alice2 and bob_1, each of them readable through
    [Get], page 3 of size 2, whose offset 4 exceeds the three accounts,
    comes back empty with the metadata of total 0 instead of 3; page 2 of
    size 2, whose offset 2 does not exceed them, comes back empty in the
    same way; and under the username filter "alice", which two accounts
    match, page 2 of size 5 reports the total 0 instead of 2. *)
Theorem GetAll_total_misses_accounts :
  fst (UserModel.Get "alice" three_accounts) = Ok (MkScrubbedUser "alice" true) /\
  fst (UserModel.Get "alice2" three_accounts) = Ok (MkScrubbedUser "alice2" false) /\
  fst (UserModel.Get "bob_1" three_accounts) = Ok (MkScrubbedUser "bob_1" false) /\
  fst (UserModel.GetAll "" None (RefPagination.MkFilters 3 2 "username") three_accounts)
  = Ok ([], RefPagination.MkMetadata 3 2 0) /\
  fst (UserModel.GetAll "" None (RefPagination.MkFilters 2 2 "username") three_accounts)
  = Ok ([], RefPagination.MkMetadata 2 2 0) /\
  fst (UserModel.GetAll "alice" None (RefPagination.MkFilters 2 5 "username") three_accounts)
  = Ok ([], RefPagination.MkMetadata 2 5 0).
Proof. repeat split; run. Qed.

Example GetAll_flat_descending :
  fst (UserModel.GetAll "" None (RefPagination.MkFilters 1 5 "-username") Sample.flat)
  = Ok ([MkScrubbedUser "carol" false; MkScrubbedUser "bob_1" false;
         MkScrubbedUser "alice" true],
        RefPagination.MkMetadata 1 5 3).
Proof. run. Qed.

Example GetAll_flat_second_page :
  fst (UserModel.GetAll "" None (RefPagination.MkFilters 2 2 "username") Sample.flat)
  = Ok ([MkScrubbedUser "carol" false], RefPagination.MkMetadata 2 2 3).
Proof. run. Qed.

(** ** The full-record overwrite *)

(** C10.  The payload [UpdateNoLock] writes under the account key is the
    object with the members username, "_" and admin, in that order: the
    bcrypt hash is there under the name "_" (base64 text, or null for a nil
    slice), and the payload is the same whatever the plaintext password and
    the bearer token of the record are. *)
Theorem UpdateNoLock_payload `{J : JSON} (c : Client) (user : User) :
  healthy c ->
  exists e,
    keyspace (snd (UserModel.UpdateNoLock user c)) !! globals.GetUserPath (Username user)
    = Some e /\
    e_value e =
      "{" +:+ ((json.quote "username" +:+ ":" +:+ Marshal_string (Username user))
               +:+ "," +:+
               (json.quote "_" +:+ ":" +:+
                  match BcryptedPassword user with
                  | Some hash => json.quote (base64.EncodeToString (bytes_of_string hash))
                  | None => "null"
                  end)
               +:+ "," +:+
               (json.quote "admin" +:+ ":" +:+ fmt.Sprint_bool (Admin user)))
          +:+ "}" /\
    forall password token : string,
      json.Marshal_User (set_AuthToken (set_PlaintextPassword user password) token)
      = e_value e.
Proof.
  intros Hc. unfold UserModel.UpdateNoLock. rewrite Put_healthy by exact Hc.
  cbn [snd Etcd.commit keyspace].
  destruct (put_value (keyspace c) (Pos.succ (revision c))
              (globals.GetUserPath (Username user)) (json.Marshal_User user))
    as (e & He & Hv).
  exists e. split; [exact He|]. rewrite Hv. split.
  - destruct user as [u p h t a]. destruct h, a; reflexivity.
  - intros password token. destruct user; reflexivity.
Qed.

Lemma UpdateNoLock_payload_witness :
  exists e,
    keyspace Sample.with_record !! globals.GetUserPath "alice" = Some e /\
    e_value e =
      RefJSON.js "{'username':'alice','_':'JDJhJDEyJGFsaWNlQmNyeXB0SGFzaA==','admin':true}".
Proof.
  destruct (UpdateNoLock_payload (J := RefJSON.codec) Sample.with_alice Sample.alice eq_refl)
    as (e & He & Hv & _).
  exists e. split; [exact He|]. rewrite Hv. run.
Defined.

(** * Further properties of the model *)

(** ** Computations that do not write *)

Section preservation.

Lemma preserves_ret {A} (a : A) : preserves_store (ret a).
Proof. intros c. split; reflexivity. Qed.

Lemma preserves_fail {A} (e : error) : preserves_store (@fail A e).
Proof. intros c. split; reflexivity. Qed.

Lemma preserves_panic {A} (msg : string) : preserves_store (@panic A msg).
Proof. intros c. split; reflexivity. Qed.

Lemma preserves_lift {A} (o : outcome A) : preserves_store (lift o).
Proof. intros c. split; reflexivity. Qed.

Lemma preserves_bind {A B} (m : M A) (k : A -> M B) :
  preserves_store m -> (forall a, preserves_store (k a)) -> preserves_store (bind m k).
Proof.
  intros Hm Hk c. unfold bind. destruct (Hm c) as [Hks Hrev].
  destruct (m c) as [[a|e|msg] c']; simpl in *; auto.
  destruct (Hk a c') as [Hks' Hrev']. split; congruence.
Qed.

Lemma preserves_transport {A} (run : Client -> A * Client) :
  (forall c, keyspace (snd (run c)) = keyspace c /\ revision (snd (run c)) = revision c) ->
  preserves_store (Etcd.transport run).
Proof.
  intros Hrun c. unfold Etcd.transport.
  destruct (faults c) as [|[[e|e]|] rest].
  - destruct (Hrun c). now destruct (run c).
  - split; reflexivity.
  - destruct (Hrun (MkClient (revision c) (keyspace c) rest)) as [Hks Hrev].
    now destruct (run _).
  - destruct (Hrun (MkClient (revision c) (keyspace c) rest)) as [Hks Hrev].
    now destruct (run _).
Qed.

Lemma preserves_Get (key : string) (pre : bool) : preserves_store (Etcd.Get key pre).
Proof. apply preserves_transport. intros c. split; reflexivity. Qed.

(** A branch made of reads answers without touching the key space and
    without a write among its responses. *)
Lemma apply_reads (r : positive) (ks : gmap string entry) (os : list Op) :
  forallb is_read os = true ->
  fst (apply_ops r ks os) = ks /\ writes (snd (apply_ops r ks os)) = false.
Proof.
  induction os as [|o os IH]; intros Hall; [split; reflexivity|].
  simpl in Hall. apply andb_true_iff in Hall as [Ho Hos].
  destruct o as [| key pre |]; try discriminate.
  cbn [apply_ops apply_op]. destruct (IH Hos) as [Hks Hw].
  destruct (apply_ops r ks os) as [ks2 resps]. simpl in *. auto.
Qed.

Lemma preserves_Txn_reads (cmps : list Cmp) (thenOps elseOps : list Op) :
  forallb is_read thenOps = true ->
  forallb is_read elseOps = true ->
  preserves_store (Etcd.Txn cmps thenOps elseOps).
Proof.
  intros Hthen Helse. apply preserves_transport. intros c. cbv zeta.
  assert (Hops : forallb is_read
            (if forallb (eval_cmp (keyspace c)) cmps then thenOps else elseOps) = true)
    by now destruct (forallb _ cmps).
  destruct (apply_reads (Pos.succ (revision c)) (keyspace c) _ Hops) as [Hks Hw].
  destruct (apply_ops _ _ _) as [ks rs]. cbn [fst snd] in *.
  unfold Etcd.commit. cbn [keyspace revision]. rewrite Hw. auto.
Qed.

End preservation.

(** X1.  The reading methods never write: whatever the store holds, whatever
    the transport does, whatever context the caller hands in and whatever
    they answer, [Get], [GetUserWithPassword], [GetUserCheckToken],
    [GetUserWithPasswordWithContext] and [GetAll] leave every stored pair
    and the revision of the cluster as they were. *)
Theorem readers_never_write `{J : JSON} `{P : Pagination} `{Srt : sort.Sorter}
    (now : Z) (username inputToken : string) (ctx : option context.Context)
    (admin : option bool) (filters : Filters) :
  preserves_store (UserModel.Get username) /\
  preserves_store (UserModel.GetUserWithPassword username) /\
  preserves_store (UserModel.GetUserCheckToken now username inputToken) /\
  preserves_store (UserModel.GetUserWithPasswordWithContext username ctx) /\
  preserves_store (UserModel.GetAll username admin filters).
Proof.
  split; [|split; [|split; [|split]]].
  - unfold UserModel.Get. apply preserves_bind; [apply preserves_Get|].
    intros resp. destruct (Count resp =? 0); [apply preserves_fail|].
    apply preserves_bind; [apply preserves_lift|]. intros kv0.
    apply preserves_bind; [apply preserves_lift|]. intros user. apply preserves_ret.
  - unfold UserModel.GetUserWithPassword. apply preserves_bind; [apply preserves_Get|].
    intros resp. destruct (Count resp =? 0); [apply preserves_fail | apply preserves_lift].
  - unfold UserModel.GetUserCheckToken.
    apply preserves_bind; [now apply preserves_Txn_reads|].
    intros resp. destruct (negb (Succeeded resp)); [apply preserves_fail|].
    unfold UserModel.response_range.
    repeat (apply preserves_bind; [try apply preserves_lift | intros ?]);
      try apply preserves_lift.
    destruct (_ <? now); [apply preserves_fail|].
    repeat (apply preserves_bind; [try apply preserves_lift | intros ?]);
      apply preserves_lift.
  - unfold UserModel.GetUserWithPasswordWithContext.
    destruct ctx as [ctx|]; [|apply preserves_panic].
    apply preserves_bind;
      [destruct ctx; [apply preserves_Get | apply preserves_fail]|].
    intros resp. destruct (Count resp =? 0); [apply preserves_fail|].
    apply preserves_bind; [apply preserves_lift|]. intros kv0. apply preserves_lift.
  - unfold UserModel.GetAll. apply preserves_bind; [apply preserves_Get|].
    intros resp. apply preserves_bind; [apply preserves_lift|].
    intros [users total]. destruct (total <? offset filters); [apply preserves_ret|].
    apply preserves_bind; [apply preserves_lift|]. intros page. apply preserves_ret.
Qed.

(** ** Bootstrap creation: what it stores, and what it leaves alone *)

Section insert_more.

Import globals UserModel.

Lemma hashed_admin_ne (u : string) : GetUserAdminPath u <> GetUserHashedPasswordPath u.
Proof.
  unfold GetUserAdminPath, GetUserHashedPasswordPath. intros H.
  apply (inj (String.app _)) in H. discriminate.
Qed.

Lemma inserted_hash (ks : gmap string entry) (r : positive) (newUser : User) :
  exists e, inserted ks r newUser !! GetUserHashedPasswordPath (Username newUser) = Some e
            /\ e_value e = hash_hex (bytes_of_slice (BcryptedPassword newUser)).
Proof.
  unfold inserted.
  rewrite put_lookup, decide_False by apply hashed_admin_ne.
  apply put_value.
Qed.

Lemma inserted_admin (ks : gmap string entry) (r : positive) (newUser : User) :
  exists e, inserted ks r newUser !! GetUserAdminPath (Username newUser) = Some e
            /\ e_value e = fmt.Sprint_bool (Admin newUser).
Proof. unfold inserted. apply put_value. Qed.

Lemma inserted_other (ks : gmap string entry) (r : positive) (newUser : User) (k : string) :
  k <> GetUserPath (Username newUser) ->
  k <> GetUserHashedPasswordPath (Username newUser) ->
  k <> GetUserAdminPath (Username newUser) ->
  inserted ks r newUser !! k = ks !! k.
Proof.
  intros H1 H2 H3. unfold inserted.
  now rewrite !put_lookup, !decide_False by congruence.
Qed.

Lemma ParseBool_Sprint_bool (b : bool) : strconv.ParseBool (fmt.Sprint_bool b) = Ok b.
Proof. now destruct b. Qed.

End insert_more.

(** X3.  A successful [Insert] leaves the three pairs of the account: the
    empty marker under the account key, the upper-case hexadecimal SHA-256
    of the password hash under the password-hash key, and under the
    admin-flag key a text that [strconv.ParseBool] reads back as the flag
    of the record. *)
Theorem Insert_stores_account (c c' : Client) (newUser : User) :
  healthy c ->
  UserModel.Insert newUser c = (Ok tt, c') ->
  (exists e, keyspace c' !! globals.GetUserPath (Username newUser) = Some e
             /\ e_value e = "") /\
  (exists e, keyspace c' !! globals.GetUserHashedPasswordPath (Username newUser) = Some e
             /\ e_value e = UserModel.hash_hex (bytes_of_slice (BcryptedPassword newUser))) /\
  (exists e, keyspace c' !! globals.GetUserAdminPath (Username newUser) = Some e
             /\ strconv.ParseBool (e_value e) = Ok (Admin newUser)).
Proof.
  intros Hc Hins. rewrite Insert_healthy in Hins by exact Hc.
  destruct (keyspace c !! globals.GetUserPath (Username newUser)); [discriminate|].
  injection Hins as <-. cbn [keyspace].
  split; [apply inserted_marker|]. split; [apply inserted_hash|].
  destruct (inserted_admin (keyspace c) (Pos.succ (revision c)) newUser) as (e & He & Hv).
  exists e. split; [exact He|]. rewrite Hv. apply ParseBool_Sprint_bool.
Qed.

Lemma Insert_stores_account_witness :
  exists e, keyspace Sample.with_alice !! globals.GetUserAdminPath "alice" = Some e
            /\ strconv.ParseBool (e_value e) = Ok true.
Proof.
  destruct (Insert_stores_account Sample.empty Sample.with_alice Sample.alice)
    as (_ & _ & Hadmin).
  - reflexivity.
  - run.
  - exact Hadmin.
Defined.

(** X4.  [Insert] touches nothing but the three keys of the account it
    creates: every other stored pair, of this or any other account, is
    afterwards what it was before, whether the creation succeeded or not. *)
Theorem Insert_leaves_other_keys (c : Client) (newUser : User) (k : string) :
  healthy c ->
  k <> globals.GetUserPath (Username newUser) ->
  k <> globals.GetUserHashedPasswordPath (Username newUser) ->
  k <> globals.GetUserAdminPath (Username newUser) ->
  keyspace (snd (UserModel.Insert newUser c)) !! k = keyspace c !! k.
Proof.
  intros Hc H1 H2 H3. rewrite Insert_healthy by exact Hc.
  destruct (keyspace c !! globals.GetUserPath (Username newUser)); [reflexivity|].
  cbn [snd keyspace]. now apply inserted_other.
Qed.

Lemma Insert_leaves_other_keys_witness :
  keyspace (snd (UserModel.Insert Sample.bob Sample.with_alice))
    !! globals.GetUserAdminPath "alice"
  = keyspace Sample.with_alice !! globals.GetUserAdminPath "alice".
Proof.
  apply (Insert_leaves_other_keys Sample.with_alice Sample.bob
           (globals.GetUserAdminPath "alice")).
  - reflexivity.
  - intros H. discriminate H.
  - intros H. discriminate H.
  - intros H. discriminate H.
Defined.

(** X5.  Usernames are unique under [Insert]: once a creation has
    succeeded, a second creation for the same username is answered with
    [ErrDuplicateUsername] and changes nothing, whatever admin flag and
    password hash the second record carries. *)
Theorem Insert_twice_is_duplicate (c c' : Client) (first second : User) :
  healthy c ->
  UserModel.Insert first c = (Ok tt, c') ->
  Username second = Username first ->
  UserModel.Insert second c' = (Err ErrDuplicateUsername, c').
Proof.
  intros Hc Hins Hname. rewrite Insert_healthy in Hins by exact Hc.
  destruct (keyspace c !! globals.GetUserPath (Username first)); [discriminate|].
  injection Hins as <-. rewrite Insert_healthy by reflexivity.
  cbn [keyspace]. rewrite Hname.
  destruct (inserted_marker (keyspace c) (Pos.succ (revision c)) first) as (e & He & _).
  now rewrite He.
Qed.

Lemma Insert_twice_is_duplicate_witness :
  UserModel.Insert (MkUser "alice" "" (Some "other hash") "" false) Sample.with_alice
  = (Err ErrDuplicateUsername, Sample.with_alice).
Proof.
  apply (Insert_twice_is_duplicate Sample.empty Sample.with_alice Sample.alice).
  - reflexivity.
  - run.
  - reflexivity.
Defined.

(** ** Authenticated creation: success, failure and repetition *)

Section insert_check_token_more.

Import globals UserModel.

#[local] Arguments strconv.ParseInt : simpl never.
#[local] Arguments hash_hex : simpl never.
#[local] Arguments fmt.Sprint_int64 : simpl never.

Lemma leaves_lift {A} (o : outcome A) : leaves_client (lift o).
Proof. intros c. reflexivity. Qed.

Lemma leaves_fail {A} (e : error) : leaves_client (@fail A e).
Proof. intros c. reflexivity. Qed.

Lemma leaves_panic {A} (msg : string) : leaves_client (@panic A msg).
Proof. intros c. reflexivity. Qed.

Lemma leaves_ret {A} (a : A) : leaves_client (ret a).
Proof. intros c. reflexivity. Qed.

Lemma leaves_bind {A B} (m : M A) (k : A -> M B) :
  leaves_client m -> (forall a, leaves_client (k a)) -> leaves_client (bind m k).
Proof.
  intros Hm Hk c. unfold bind. specialize (Hm c).
  destruct (m c) as [[a|e|msg] c']; simpl in *; subst; auto. apply Hk.
Qed.

(** The answer of the failure branch is never an account. *)
Lemma diagnose_not_Ok (token account : option entry) (now_check : Z) (su : ScrubbedUser) :
  diagnose token account now_check <> Ok su.
Proof.
  unfold diagnose. destruct token as [t|]; [|discriminate].
  destruct (strconv.ParseInt (e_value t)) as [expiry|e|m]; try discriminate.
  destruct (expiry <? now_check); [discriminate|].
  destruct account; discriminate.
Qed.

(** A failed transaction leaves the client as it was. *)
Lemma InsertCheckToken_failed_state (c : Client) (now_txn now_check : Z)
    (newUser callingUser : User) :
  healthy c ->
  creation_allowed (keyspace c) now_txn newUser callingUser = false ->
  snd (InsertCheckToken now_txn now_check newUser callingUser c) = c.
Proof.
  intros Hc Hfail. unfold InsertCheckToken, creation_allowed in *.
  set (tp := GetUserTokenPath _ _) in *.
  set (up := GetUserPath _) in *.
  unfold bind at 1. rewrite Txn_healthy by exact Hc. cbv zeta.
  rewrite Hfail. cbn [apply_ops apply_op fst snd].
  match goal with
  | |- snd (?k ?c1) = _ =>
      assert (Hk : leaves_client k); [| rewrite Hk; destruct c; reflexivity]
  end.
  cbn [Succeeded negb]. unfold response_range.
  apply leaves_bind; [apply leaves_bind; [apply leaves_lift | intros; apply leaves_lift]|].
  intros r0. destruct (Count r0 =? 0); [apply leaves_fail|].
  apply leaves_bind; [apply leaves_lift|]. intros kv0.
  apply leaves_bind; [apply leaves_lift|]. intros expiry.
  destruct (expiry <? now_check); [apply leaves_fail|].
  apply leaves_bind; [apply leaves_bind; [apply leaves_lift | intros; apply leaves_lift]|].
  intros r1. destruct (negb (Count r1 =? 0)); [apply leaves_fail | apply leaves_panic].
Qed.

Lemma last_char_app (s t : string) : t <> "" -> last_char (s +:+ t) = last_char t.
Proof.
  intros Ht. induction s as [|a s IH]; [reflexivity|].
  rewrite app_cons. cbn [last_char]. rewrite IH.
  destruct (s +:+ t) eqn:E; [|reflexivity].
  destruct s; [|discriminate]. now destruct t.
Qed.

Lemma hex_digit_upper_char (d : Z) :
  0 <= d < 16 -> fmt.hex_digit_upper d <> "n"%char /\ fmt.hex_digit_upper d <> "d"%char.
Proof.
  intros Hd.
  assert (Hcases : d = 0 \/ d = 1 \/ d = 2 \/ d = 3 \/ d = 4 \/ d = 5 \/ d = 6 \/ d = 7 \/
                   d = 8 \/ d = 9 \/ d = 10 \/ d = 11 \/ d = 12 \/ d = 13 \/ d = 14 \/ d = 15)
    by lia.
  repeat (destruct Hcases as [->|Hcases]; [split; discriminate|]).
  subst. split; discriminate.
Qed.

Lemma Sprintf_X_last (bs : list Z) :
  bs <> [] ->
  exists d, 0 <= d < 16 /\ last_char (fmt.Sprintf_X bs) = Some (fmt.hex_digit_upper d).
Proof.
  induction bs as [|b bs IH]; [congruence|]. intros _.
  destruct bs as [|b' bs].
  - exists (b mod 16). split; [apply Z.mod_pos_bound; lia | reflexivity].
  - destruct IH as (d & Hd & Hlast); [discriminate|].
    exists d. split; [exact Hd|].
    cbn [fmt.Sprintf_X last_char] in *. exact Hlast.
Qed.

(** The last character of a token key is the separator or a hexadecimal
    digit, so a token key is neither an admin-flag key nor a password-hash
    key. *)
Lemma token_path_last (username : string) (bs : list Z) :
  last_char (GetUserTokenPath username (fmt.Sprintf_X bs)) <> Some "n"%char /\
  last_char (GetUserTokenPath username (fmt.Sprintf_X bs)) <> Some "d"%char.
Proof.
  unfold GetUserTokenPath.
  destruct bs as [|b bs].
  - rewrite last_char_app by discriminate. split; discriminate.
  - rewrite last_char_app by discriminate.
    change ("/tokens/" +:+ fmt.Sprintf_X (b :: bs))
      with ("/tokens/" +:+ fmt.Sprintf_X (b :: bs)).
    rewrite last_char_app by discriminate.
    destruct (Sprintf_X_last (b :: bs)) as (d & Hd & ->); [discriminate|].
    destruct (hex_digit_upper_char d Hd) as [Hn Hd'].
    split; congruence.
Qed.

Lemma token_path_ne_admin (caller : string) (bs : list Z) (username : string) :
  GetUserTokenPath caller (fmt.Sprintf_X bs) <> GetUserAdminPath username.
Proof.
  intros H. destruct (token_path_last caller bs) as [Hn _]. apply Hn.
  rewrite H. unfold GetUserAdminPath. rewrite last_char_app by discriminate. reflexivity.
Qed.

Lemma token_path_ne_hashed (caller : string) (bs : list Z) (username : string) :
  GetUserTokenPath caller (fmt.Sprintf_X bs) <> GetUserHashedPasswordPath username.
Proof.
  intros H. destruct (token_path_last caller bs) as [_ Hd]. apply Hd.
  rewrite H. unfold GetUserHashedPasswordPath. rewrite last_char_app by discriminate.
  reflexivity.
Qed.

(** The condition set, read on the two keys it tests. *)
Lemma creation_allowed_true (ks : gmap string entry) (now_txn : Z)
    (newUser callingUser : User) :
  creation_allowed ks now_txn newUser callingUser = true <->
  (exists et, ks !! GetUserTokenPath (Username callingUser)
                      (hash_hex (bytes_of_string (AuthToken callingUser))) = Some et
              /\ String.compare (e_value et) (fmt.Sprint_int64 now_txn) = Gt)
  /\ ks !! GetUserPath (Username newUser) = None.
Proof.
  unfold creation_allowed. set (tp := GetUserTokenPath _ _).
  cbn [forallb eval_cmp].
  destruct (ks !! tp) as [et|]; destruct (ks !! GetUserPath (Username newUser)) as [ea|];
    try destruct (String.compare (e_value et) (fmt.Sprint_int64 now_txn)) eqn:Hcmp;
    cbn; (split; [intros H; try discriminate H
                 | intros [(et' & Heq & Hgt) Hn]; try discriminate; try congruence]).
  split; [exists et; auto | reflexivity].
Qed.

End insert_check_token_more.



(** X7.  An authenticated creation goes through on the condition set of
    its transaction: when the caller's token key is present, its
    stored value compares greater, as text, than the decimal clock reading,
    and the target account key is absent, the method returns the scrubbed
    new account and the store holds the three pairs of the new account on
    top of what it held. *)
Theorem InsertCheckToken_creates_account
    (c : Client) (now_txn now_check : Z) (newUser callingUser : User) (et : entry) :
  healthy c ->
  keyspace c !! globals.GetUserTokenPath (Username callingUser)
      (UserModel.hash_hex (bytes_of_string (AuthToken callingUser))) = Some et ->
  String.compare (e_value et) (fmt.Sprint_int64 now_txn) = Gt ->
  keyspace c !! globals.GetUserPath (Username newUser) = None ->
  fst (UserModel.InsertCheckToken now_txn now_check newUser callingUser c)
  = Ok (MkScrubbedUser (Username newUser) (Admin newUser)) /\
  keyspace (snd (UserModel.InsertCheckToken now_txn now_check newUser callingUser c))
  = inserted (keyspace c) (Pos.succ (revision c)) newUser.
Proof.
  intros Hc Htok Hgt Hacc.
  rewrite InsertCheckToken_allowed; [split; reflexivity | exact Hc |].
  apply creation_allowed_true. eauto.
Qed.

Lemma InsertCheckToken_creates_account_witness :
  fst (UserModel.InsertCheckToken 1700000000 1700000000 Sample.bob Sample.caller
         (Sample.with_token 1700000060)) = Ok (MkScrubbedUser "bob_1" false).
Proof.
  apply (InsertCheckToken_creates_account (Sample.with_token 1700000060)
           1700000000 1700000000 Sample.bob Sample.caller (Entry "1700000060" 3 3 1)).
  - reflexivity.
  - run.
  - run.
  - run.
Defined.

(** X8.  Usernames are unique under authenticated creation: after a
    creation that succeeded, the same request presented again, with a token
    whose stored expiry is not before the clock reading, is answered with
    [ErrDuplicateUsername].  The token pair survives the first creation,
    since no token key is one of the keys a creation writes. *)
Theorem InsertCheckToken_twice_is_duplicate
    (c c' : Client) (now_txn now_check now_txn' now_check' expiry : Z)
    (newUser callingUser : User) (su : ScrubbedUser) (et : entry) :
  healthy c ->
  UserModel.InsertCheckToken now_txn now_check newUser callingUser c = (Ok su, c') ->
  keyspace c !! globals.GetUserTokenPath (Username callingUser)
      (UserModel.hash_hex (bytes_of_string (AuthToken callingUser))) = Some et ->
  strconv.ParseInt (e_value et) = Ok expiry ->
  now_check' <= expiry ->
  fst (UserModel.InsertCheckToken now_txn' now_check' newUser callingUser c')
  = Err ErrDuplicateUsername.
Proof.
  intros Hc Hfirst Htok Hparse Hle.
  destruct (creation_allowed (keyspace c) now_txn newUser callingUser) eqn:Hallowed.
  - rewrite InsertCheckToken_allowed in Hfirst by assumption.
    injection Hfirst as _ <-.
    apply creation_allowed_true in Hallowed as [_ Hacc].
    destruct (inserted_marker (keyspace c) (Pos.succ (revision c)) newUser)
      as (ea & Hea & _).
    assert (Hkeep : inserted (keyspace c) (Pos.succ (revision c)) newUser
                      !! globals.GetUserTokenPath (Username callingUser)
                           (UserModel.hash_hex (bytes_of_string (AuthToken callingUser)))
                    = Some et).
    { rewrite inserted_other; [exact Htok | congruence | |].
      - apply token_path_ne_hashed.
      - apply token_path_ne_admin. }
    rewrite InsertCheckToken_failed.
    + cbn [keyspace]. rewrite Hkeep, Hea. unfold diagnose. rewrite Hparse.
      assert (H : (expiry <? now_check') = false) by (apply Z.ltb_ge; lia).
      now rewrite H.
    + reflexivity.
    + cbn [keyspace].
      destruct (creation_allowed _ now_txn' newUser callingUser) eqn:Hagain; [|reflexivity].
      apply creation_allowed_true in Hagain as [_ Hnone]. congruence.
  - exfalso. apply (f_equal fst) in Hfirst. cbn [fst] in Hfirst.
    rewrite InsertCheckToken_failed in Hfirst by assumption.
    exact (diagnose_not_Ok _ _ _ _ Hfirst).
Qed.

Lemma InsertCheckToken_twice_is_duplicate_witness :
  fst (UserModel.InsertCheckToken 1700000005 1700000005 Sample.bob Sample.caller
         (snd (UserModel.InsertCheckToken 1700000000 1700000000 Sample.bob Sample.caller
                 (Sample.with_token 1700000060))))
  = Err ErrDuplicateUsername.
Proof.
  eapply (InsertCheckToken_twice_is_duplicate (Sample.with_token 1700000060) _
            1700000000 1700000000 1700000005 1700000005 1700000060
            Sample.bob Sample.caller (MkScrubbedUser "bob_1" false)
            (Entry "1700000060" 3 3 1)).
  - reflexivity.
  - run.
  - run.
  - run.
  - lia.
Defined.

(** ** Reading and overwriting the account record *)

Section record_facts.

Import globals UserModel.
Context `{J : JSON}.

(** Under a live context and on a store that answers, the read is decided
    by the account key alone. *)
Lemma GetUserWithPasswordWithContext_healthy (c : Client) (username : string) :
  healthy c ->
  GetUserWithPasswordWithContext username (Some context.Live) c =
  (match keyspace c !! GetUserPath username with
   | None => Err ErrRecordNotFound
   | Some e => Unmarshal_User (e_value e)
   end, c).
Proof.
  intros Hc. unfold GetUserWithPasswordWithContext, Etcd.under, bind.
  rewrite Get_healthy by exact Hc.
  destruct (keyspace c !! GetUserPath username) as [e|] eqn:Hk.
  - rewrite (range_one_Some _ _ _ Hk). reflexivity.
  - rewrite (range_one_None _ _ Hk). reflexivity.
Qed.

Lemma UpdateNoLock_healthy (c : Client) (user : User) :
  healthy c ->
  UpdateNoLock user c =
  (Ok tt, MkClient (Pos.succ (revision c))
            (put (keyspace c) (Pos.succ (revision c)) (GetUserPath (Username user))
                 (json.Marshal_User user)) []).
Proof.
  intros Hc. unfold UpdateNoLock. rewrite Put_healthy by exact Hc.
  unfold Etcd.commit. cbn. unfold healthy in Hc. now rewrite Hc.
Qed.

End record_facts.

(** Without a usable context no request is sent: the nil pointer panics
    and a context that is done returns its error, whatever the store holds
    and whatever the transport would have done. *)
Lemma GetUserWithPasswordWithContext_without_call `{J : JSON}
    (c : Client) (username : string) (e : error) :
  UserModel.GetUserWithPasswordWithContext username None c
  = (Panic "runtime error: invalid memory address or nil pointer dereference", c) /\
  UserModel.GetUserWithPasswordWithContext username (Some (context.Done e)) c
  = (Err e, c).
Proof. split; reflexivity. Qed.

Lemma Get_as_full_read `{J : JSON} (c : Client) (username : string) :
  UserModel.Get username c =
  bind (UserModel.GetUserWithPasswordWithContext username (Some context.Live))
       (fun user => ret (Scrub user)) c.
Proof.
  unfold UserModel.Get, UserModel.GetUserWithPasswordWithContext, Etcd.under, bind.
  destruct (Etcd.Get (globals.GetUserPath username) false c) as [[resp|e|m] c1];
    try reflexivity.
  destruct (Count resp =? 0); [reflexivity|].
  unfold lift. destruct (index (Kvs resp) 0) as [kv0|e|m]; reflexivity.
Qed.

(** X10.  An account whose key is absent is not found, whatever else the
    store holds under its name: [Get], [GetUserWithPasswordWithContext]
    (under a live context) and [GetUserCheckToken] all answer
    [ErrRecordNotFound], even when child keys or token pairs of that
    username are stored. *)
Theorem absent_account_is_not_found `{J : JSON}
    (c : Client) (now : Z) (username inputToken : string) :
  healthy c ->
  keyspace c !! globals.GetUserPath username = None ->
  fst (UserModel.Get username c) = Err ErrRecordNotFound /\
  fst (UserModel.GetUserWithPasswordWithContext username (Some context.Live) c)
  = Err ErrRecordNotFound /\
  fst (UserModel.GetUserCheckToken now username inputToken c) = Err ErrRecordNotFound.
Proof.
  intros Hc Hnone. split; [|split].
  - rewrite Get_as_full_read. unfold bind.
    rewrite GetUserWithPasswordWithContext_healthy by exact Hc. now rewrite Hnone.
  - rewrite GetUserWithPasswordWithContext_healthy by exact Hc. now rewrite Hnone.
  - rewrite GetUserCheckToken_healthy by exact Hc. now rewrite Hnone.
Qed.

Lemma absent_account_is_not_found_witness :
  fst (UserModel.Get "bob_1" Sample.with_alice) = Err ErrRecordNotFound.
Proof.
  destruct (absent_account_is_not_found (J := RefJSON.codec)
              Sample.with_alice 0 "bob_1" "") as (Hget & _).
  - reflexivity.
  - run.
  - exact Hget.
Defined.

(** X11.  What [UpdateNoLock] writes is what the readers return: on any
    store that answers, whether or not the account existed, after the
    overwrite of a record that the decoder reads back from its own
    encoding, [GetUserWithPasswordWithContext] (under a live context)
    returns the decoded record and [Get] its scrubbed projection. *)
Theorem UpdateNoLock_then_read `{J : JSON} (c : Client) (user decoded : User) :
  healthy c ->
  Unmarshal_User (json.Marshal_User user) = Ok decoded ->
  fst (UserModel.GetUserWithPasswordWithContext (Username user) (Some context.Live)
         (snd (UserModel.UpdateNoLock user c))) = Ok decoded /\
  fst (UserModel.Get (Username user) (snd (UserModel.UpdateNoLock user c)))
  = Ok (Scrub decoded).
Proof.
  intros Hc Hdec. rewrite UpdateNoLock_healthy by exact Hc. cbn [snd].
  destruct (put_value (keyspace c) (Pos.succ (revision c))
              (globals.GetUserPath (Username user)) (json.Marshal_User user))
    as (e & He & Hv).
  assert (Hfull : UserModel.GetUserWithPasswordWithContext (Username user)
            (Some context.Live)
            (MkClient (Pos.succ (revision c))
               (put (keyspace c) (Pos.succ (revision c))
                    (globals.GetUserPath (Username user)) (json.Marshal_User user)) [])
          = (Ok decoded,
             MkClient (Pos.succ (revision c))
               (put (keyspace c) (Pos.succ (revision c))
                    (globals.GetUserPath (Username user)) (json.Marshal_User user)) [])).
  { rewrite GetUserWithPasswordWithContext_healthy by reflexivity.
    cbn [keyspace]. now rewrite He, Hv, Hdec. }
  split.
  - now rewrite Hfull.
  - rewrite Get_as_full_read. unfold bind. now rewrite Hfull.
Qed.

Lemma UpdateNoLock_then_read_witness :
  fst (UserModel.Get "bob_1" (snd (UserModel.UpdateNoLock Sample.bob Sample.empty)))
  = Ok (MkScrubbedUser "bob_1" false).
Proof.
  destruct (UpdateNoLock_then_read (J := RefJSON.codec) Sample.empty Sample.bob
              (MkUser "bob_1" "" (Some "$2a$12$bobBcryptHash") "" false))
    as (_ & Hget).
  - reflexivity.
  - run.
  - exact Hget.
Defined.

(** X12.  [UpdateNoLock] writes the account key and nothing else: every
    other pair keeps its value, and so do the admin-flag key and the
    password-hash key of the same account, which the overwrite does not
    bring in line with the new record. *)
Theorem UpdateNoLock_leaves_other_keys `{J : JSON} (c : Client) (user : User) :
  healthy c ->
  (forall k, k <> globals.GetUserPath (Username user) ->
             keyspace (snd (UserModel.UpdateNoLock user c)) !! k = keyspace c !! k) /\
  keyspace (snd (UserModel.UpdateNoLock user c)) !! globals.GetUserAdminPath (Username user)
  = keyspace c !! globals.GetUserAdminPath (Username user) /\
  keyspace (snd (UserModel.UpdateNoLock user c))
    !! globals.GetUserHashedPasswordPath (Username user)
  = keyspace c !! globals.GetUserHashedPasswordPath (Username user).
Proof.
  intros Hc. rewrite UpdateNoLock_healthy by exact Hc. cbn [snd keyspace].
  assert (Hother : forall k, k <> globals.GetUserPath (Username user) ->
            put (keyspace c) (Pos.succ (revision c)) (globals.GetUserPath (Username user))
                (json.Marshal_User user) !! k = keyspace c !! k).
  { intros k Hk. rewrite put_lookup, decide_False by congruence. reflexivity. }
  split; [exact Hother|].
  split; apply Hother; [apply admin_path_ne | apply hashed_path_ne].
Qed.

Lemma UpdateNoLock_leaves_other_keys_witness :
  keyspace (snd (UserModel.UpdateNoLock
                   (MkUser "alice" "" (Some "new hash") "" false) Sample.with_alice))
    !! globals.GetUserAdminPath "alice"
  = keyspace Sample.with_alice !! globals.GetUserAdminPath "alice".
Proof.
  destruct (UpdateNoLock_leaves_other_keys (J := RefJSON.codec) Sample.with_alice
              (MkUser "alice" "" (Some "new hash") "" false) eq_refl)
    as (_ & Hadmin & _).
  exact Hadmin.
Defined.

(** ** Deletion: what goes, what stays, what follows *)

Section delete_more.

Import globals UserModel.

Lemma string_app_nil_r (s : string) : s +:+ "" = s.
Proof. induction s as [|a s IH]; [reflexivity|]. rewrite app_cons. now rewrite IH. Qed.

Lemma prefix_refl (s : string) : String.prefix s s = true.
Proof. rewrite <- (string_app_nil_r s) at 2. apply prefix_app. Qed.

Lemma Delete_success (c c' : Client) (username : string) :
  healthy c ->
  Delete username c = (Ok tt, c') ->
  healthy c' /\ keyspace c' = delete_range (keyspace c) (GetUserPath username) true.
Proof.
  intros Hc Hdel. rewrite Delete_healthy_run in Hdel by exact Hc.
  destruct (Count _ =? 0); [discriminate|]. injection Hdel as <-.
  split; [exact Hc | reflexivity].
Qed.

End delete_more.

(** X13.  A [Delete] that goes through removes exactly the subtree of the
    account key: afterwards no stored key has the account key as a prefix,
    and every key without that prefix holds what it held before. *)
Theorem Delete_removes_the_subtree (c c' : Client) (username k : string) :
  healthy c ->
  UserModel.Delete username c = (Ok tt, c') ->
  keyspace c' !! k =
  if String.prefix (globals.GetUserPath username) k then None else keyspace c !! k.
Proof.
  intros Hc Hdel. destruct (Delete_success c c' username Hc Hdel) as [_ ->].
  apply delete_range_lookup.
Qed.

Lemma Delete_removes_the_subtree_witness :
  keyspace (snd (UserModel.Delete "bob_1" (snd (UserModel.Insert Sample.bob Sample.with_alice))))
    !! globals.GetUserAdminPath "alice"
  = keyspace (snd (UserModel.Insert Sample.bob Sample.with_alice))
      !! globals.GetUserAdminPath "alice".
Proof.
  rewrite (Delete_removes_the_subtree
             (snd (UserModel.Insert Sample.bob Sample.with_alice))
             (snd (UserModel.Delete "bob_1" (snd (UserModel.Insert Sample.bob Sample.with_alice))))
             "bob_1" (globals.GetUserAdminPath "alice")).
  - reflexivity.
  - reflexivity.
  - run.
Defined.

(** X14.  [Delete] answers [ErrRecordNotFound] exactly when no stored key
    has the account key as a prefix, and in that case it hands the client
    back untouched: the account key itself need not exist for the delete to
    go ahead, a child key is enough. *)
Theorem Delete_not_found_exactly (c : Client) (username : string) :
  healthy c ->
  (fst (UserModel.Delete username c) = Err ErrRecordNotFound <->
   forall k, String.prefix (globals.GetUserPath username) k = true ->
             keyspace c !! k = None) /\
  (fst (UserModel.Delete username c) = Err ErrRecordNotFound ->
   snd (UserModel.Delete username c) = c).
Proof.
  intros Hc. split; [now apply Delete_NotFound_iff|].
  rewrite Delete_healthy_run by exact Hc.
  destruct (Count _ =? 0); [reflexivity | discriminate].
Qed.

Lemma Delete_not_found_exactly_witness :
  UserModel.Delete "bob_1" Sample.with_alice = (Err ErrRecordNotFound, Sample.with_alice).
Proof.
  destruct (Delete_not_found_exactly Sample.with_alice "bob_1" eq_refl) as [[_ Hnf] Hsame].
  assert (H : fst (UserModel.Delete "bob_1" Sample.with_alice) = Err ErrRecordNotFound).
  { apply Hnf. apply range_prefix_empty. run. }
  specialize (Hsame H).
  destruct (UserModel.Delete "bob_1" Sample.with_alice) as [o c1]. simpl in *.
  now subst.
Defined.

(** X15.  After a [Delete] that went through the account is gone for every
    method: a second [Delete], [Get] and [GetUserWithPassword] answer
    [ErrRecordNotFound], and an [Insert] for that username succeeds
    again. *)
Theorem Delete_then_account_is_gone `{J : JSON} (c c' : Client) (user : User) :
  healthy c ->
  UserModel.Delete (Username user) c = (Ok tt, c') ->
  fst (UserModel.Delete (Username user) c') = Err ErrRecordNotFound /\
  fst (UserModel.Get (Username user) c') = Err ErrRecordNotFound /\
  fst (UserModel.GetUserWithPassword (Username user) c') = Err ErrRecordNotFound /\
  fst (UserModel.Insert user c') = Ok tt.
Proof.
  intros Hc Hdel. destruct (Delete_success c c' _ Hc Hdel) as [Hc' Hks].
  assert (Hgone : forall k, String.prefix (globals.GetUserPath (Username user)) k = true ->
                            keyspace c' !! k = None).
  { intros k Hp. now rewrite Hks, delete_range_lookup, Hp. }
  assert (Hkey : keyspace c' !! globals.GetUserPath (Username user) = None)
    by apply Hgone, prefix_refl.
  split; [|split; [|split]].
  - now apply Delete_NotFound_iff.
  - rewrite Get_as_full_read. unfold bind.
    rewrite GetUserWithPasswordWithContext_healthy by exact Hc'. now rewrite Hkey.
  - unfold UserModel.GetUserWithPassword, bind. rewrite Get_healthy by exact Hc'.
    apply range_prefix_empty in Hgone. now rewrite Hgone.
  - rewrite Insert_healthy by exact Hc'. now rewrite Hkey.
Qed.

Lemma Delete_then_account_is_gone_witness :
  fst (UserModel.Insert Sample.alice (snd (UserModel.Delete "alice" Sample.with_alice)))
  = Ok tt.
Proof.
  destruct (Delete_then_account_is_gone (J := RefJSON.codec) Sample.with_alice
              (snd (UserModel.Delete "alice" Sample.with_alice)) Sample.alice)
    as (_ & _ & _ & Hins).
  - reflexivity.
  - run.
  - exact Hins.
Defined.

(** ** Listing: the scan, the page and the bounds *)

Section listing_more.

Import globals UserModel.
Context `{J : JSON} `{Srt : sort.Sorter}.

(** The levels of a key are never empty, so the first level is what the
    loop reads at index 0. *)
Lemma Split_first (s sep : string) :
  index (strings.Split s sep) 0 = Ok (nth 0 (strings.Split s sep) "").
Proof.
  unfold strings.Split.
  pose proof (Split_loop_nonempty (String.length s) s sep) as Hlen.
  destruct (strings.Split_loop (String.length s) s sep); [simpl in Hlen; lia | reflexivity].
Qed.

(** One turn of the scan, in terms of the filters. *)
Lemma scan_cons (username : string) (admin : option bool) (kv : KeyValue)
    (kvs : list KeyValue) (users : list ScrubbedUser) (total : Z) :
  scan username admin (kv :: kvs) users total =
  if decoded_by_scan username kv then
    match Unmarshal_User (Value kv) with
    | Ok user =>
        if passes_admin admin user
        then scan username admin kvs (users ++ [Scrub user]) (total + 1)
        else scan username admin kvs users total
    | Err e => Err e
    | Panic m => Panic m
    end
  else scan username admin kvs users total.
Proof.
  cbn [scan]. rewrite Split_first.
  unfold decoded_by_scan, top_level, passes_username, first_level, passes_admin.
  destruct (1 <? _); [reflexivity|]. cbn [negb andb].
  destruct (String.eqb username ""); cbn [negb andb orb].
  - destruct (Unmarshal_User (Value kv)) as [user|e|m]; try reflexivity.
    destruct admin as [a|]; [|reflexivity]. now destruct (Bool.eqb (Admin user) a).
  - destruct (strings.Contains _ username); cbn [negb]; [|reflexivity].
    destruct (Unmarshal_User (Value kv)) as [user|e|m]; try reflexivity.
    destruct admin as [a|]; [|reflexivity]. now destruct (Bool.eqb (Admin user) a).
Qed.

(** A scan that completes has accumulated exactly the contributions of the
    pairs, in the order of the pairs. *)
Lemma scan_Ok_listed (username : string) (admin : option bool) (kvs : list KeyValue) :
  forall (users users' : list ScrubbedUser) (total total' : Z),
    scan username admin kvs users total = Ok (users', total') ->
    users' = (users ++ omap (listed username admin) kvs)%list.
Proof.
  induction kvs as [|kv kvs IH]; intros users users' total total' H.
  - injection H as <- _. cbn. now rewrite app_nil_r.
  - rewrite scan_cons in H.
    change (omap (listed username admin) (kv :: kvs))
      with (match listed username admin kv with
            | Some y => y :: omap (listed username admin) kvs
            | None => omap (listed username admin) kvs
            end).
    unfold listed at 1. fold (decoded_by_scan username kv).
    destruct (decoded_by_scan username kv); [|now apply IH in H].
    destruct (Unmarshal_User (Value kv)) as [user|e|m]; try discriminate.
    destruct (passes_admin admin user); [|now apply IH in H].
    apply IH in H. rewrite H, <- app_assoc. reflexivity.
Qed.

(** A pair whose value the decoder rejects stops the scan. *)
Lemma scan_decode_failure (username : string) (admin : option bool) (kvs : list KeyValue) :
  forall (users : list ScrubbedUser) (total : Z) (kv : KeyValue),
    kv ∈ kvs ->
    decoded_by_scan username kv = true ->
    (forall user, Unmarshal_User (Value kv) <> Ok user) ->
    forall r, scan username admin kvs users total <> Ok r.
Proof.
  induction kvs as [|kv0 kvs IH]; intros users total kv Hin Hdec Hbad r.
  - inversion Hin.
  - rewrite scan_cons. apply elem_of_cons in Hin as [<-|Hin].
    + rewrite Hdec. destruct (Unmarshal_User (Value kv)) as [user|e|m]; try discriminate.
      now destruct (Hbad user).
    + destruct (decoded_by_scan username kv0); [|now apply (IH _ _ kv)].
      destruct (Unmarshal_User (Value kv0)) as [user|e|m]; try discriminate.
      destruct (passes_admin admin user); now apply (IH _ _ kv).
Qed.

Lemma skipn_nth_error {A} (l : list A) (n : nat) (x : A) :
  nth_error l n = Some x -> skipn n l = x :: skipn (S n) l.
Proof.
  revert n. induction l as [|a l IH]; intros [|n] H; try discriminate.
  - injection H as ->. reflexivity.
  - cbn [skipn nth_error] in *. now apply IH.
Qed.

(** The copy loop copies the segment it is asked for. *)
Lemma paginate_segment (fuel : nat) (users : list ScrubbedUser) :
  forall (i : Z) (acc : list ScrubbedUser),
    0 <= i ->
    (Z.to_nat i + fuel <= List.length users)%nat ->
    paginate fuel users i acc = Ok (acc ++ firstn fuel (skipn (Z.to_nat i) users))%list.
Proof.
  induction fuel as [|fuel IH]; intros i acc Hi Hlen.
  - cbn. now rewrite app_nil_r.
  - cbn [paginate]. assert (Hneg : (i <? 0) = false) by (apply Z.ltb_ge; lia).
    rewrite Hneg. unfold index.
    destruct (nth_error users (Z.to_nat i)) as [u|] eqn:Hnth.
    + rewrite IH by lia.
      rewrite (skipn_nth_error _ _ _ Hnth). cbn [firstn].
      rewrite <- app_assoc. cbn. repeat f_equal. lia.
    + apply nth_error_None in Hnth. lia.
Qed.

(** The copy loop copies nothing that was not among the accounts. *)
Lemma paginate_subset (fuel : nat) (users : list ScrubbedUser) :
  forall (i : Z) (acc page : list ScrubbedUser),
    paginate fuel users i acc = Ok page ->
    forall su, su ∈ page -> su ∈ acc \/ su ∈ users.
Proof.
  induction fuel as [|fuel IH]; intros i acc page H su Hin.
  - injection H as <-. auto.
  - cbn [paginate] in H. destruct (i <? 0); [discriminate|].
    unfold index in H. destruct (nth_error users (Z.to_nat i)) as [u|] eqn:Hnth;
      [|discriminate].
    destruct (IH _ _ _ H su Hin) as [Hacc|Hu]; [|auto].
    apply elem_of_app in Hacc as [Hacc|Hnew]; [auto|].
    apply list_elem_of_singleton in Hnew as ->. right.
    apply list_elem_of_In. eapply nth_error_In. exact Hnth.
Qed.

Lemma wrap64_small (x : Z) : - 2 ^ 63 <= x < 2 ^ 63 -> wrap64 x = x.
Proof. intros H. unfold wrap64. rewrite Z.mod_small; lia. Qed.

(** A list in strict order holds no two elements with the same key. *)
Lemma strict_order_keys {A B} (less : A -> A -> bool) (key : A -> B) (l : list A) :
  (forall x y, key x = key y -> less x y = false) ->
  StronglySorted (fun a b => less a b = true) l ->
  forall x y, x ∈ l -> y ∈ l -> key x = key y -> x = y.
Proof.
  intros Hkey. induction 1 as [|z l Hl IH Hz]; intros x y Hx Hy Heq.
  - inversion Hx.
  - rewrite Forall_forall in Hz.
    apply elem_of_cons in Hx as [->|Hx]; apply elem_of_cons in Hy as [->|Hy].
    + reflexivity.
    + apply Hz in Hy. rewrite (Hkey _ _ Heq) in Hy. discriminate.
    + apply Hz in Hx. rewrite (Hkey _ _ (eq_sym Heq)) in Hx. discriminate.
    + now apply IH.
Qed.

(** Every implementation of [sort.Slice] returns the strictly ordered
    arrangement of its argument when there is one. *)
Lemma Slice_unique {A B} (less : A -> A -> bool) (key : A -> B) (s sorted : list A) :
  (forall a b, less a b = true -> less b a = false) ->
  (forall a b c, less b a = false -> less c b = false -> less c a = false) ->
  (forall x y, less x y = false -> less y x = false -> key x = key y) ->
  (forall x y, key x = key y -> less x y = false) ->
  sorted ≡ₚ s ->
  StronglySorted (fun a b => less a b = true) sorted ->
  sort.Slice less s = sorted.
Proof.
  intros Hasym Htrans Hconnex Hkey Hperm Hstrict.
  apply (StronglySorted_unique_strong (fun a b => less b a = false)).
  - intros x1 x2 Hx1 Hx2 H12 H21.
    apply (strict_order_keys less key sorted Hkey Hstrict); [|exact Hx2|].
    + rewrite sort.Slice_Permutation in Hx1. now rewrite Hperm.
    + now apply Hconnex.
  - apply Sorted_StronglySorted; [|now apply sort.Slice_Sorted].
    intros a b c Hab Hbc. exact (Htrans _ _ _ Hab Hbc).
  - clear Hperm. induction Hstrict as [|z l Hl IH Hz]; constructor; [exact IH|].
    eapply Forall_impl; [exact Hz|]. intros y Hy. now apply Hasym.
  - now rewrite sort.Slice_Permutation.
Qed.

Lemma sort_users_unique (column : string) (users sorted : list ScrubbedUser) :
  sorted ≡ₚ users ->
  StronglySorted (in_order column) sorted ->
  sort_users column users = sorted.
Proof.
  unfold sort_users, in_order. intros Hperm Hord.
  destruct (String.eqb column "-username").
  - apply (Slice_unique _ Scrubbed_Username _ _); try assumption.
    + intros a b. apply ltb_asym.
    + intros a b c Hab Hbc. exact (not_ltb_trans _ _ _ Hbc Hab).
    + intros x y Hxy Hyx. exact (ltb_connex _ _ Hyx Hxy).
    + intros x y ->. apply ltb_irrefl.
  - apply (Slice_unique _ Scrubbed_Username _ _); try assumption.
    + intros a b. apply ltb_asym.
    + intros a b c. apply not_ltb_trans.
    + intros x y. apply ltb_connex.
    + intros x y ->. apply ltb_irrefl.
Qed.

End listing_more.





(** X20.  A negative offset is not rejected: when the scan completes (no
    record that reaches the decoder is rejected), the offset is below 0 and
    the limit above 0, the copy loop of [GetAll] starts at the negative
    index and the method ends in the index-out-of-range panic of the Go
    runtime, however many accounts the scan has matched. *)
Theorem GetAll_negative_offset_panics `{J : JSON} `{P : Pagination} `{Srt : sort.Sorter}
    (c : Client) (username : string) (admin : option bool) (filters : Filters)
    (users : list ScrubbedUser) (totalRecords : Z) :
  healthy c ->
  UserModel.scan username admin (scanned (keyspace c)) [] 0 = Ok (users, totalRecords) ->
  offset filters < 0 ->
  0 < limit filters ->
  - 2 ^ 63 <= offset filters + limit filters < 2 ^ 63 ->
  fst (UserModel.GetAll username admin filters c)
  = Panic "runtime error: index out of range".
Proof.
  intros Hc Hscan Hoff Hlim Hsum.
  unfold UserModel.GetAll, bind. rewrite Get_healthy by exact Hc.
  unfold lift. unfold scanned in Hscan. rewrite Hscan.
  pose proof (scan_total _ _ _ _ _ _ _ Hscan) as Htotal. simpl in Htotal.
  assert (Hlt : (totalRecords <? offset filters) = false) by (apply Z.ltb_ge; lia).
  rewrite Hlt. rewrite wrap64_small by lia.
  destruct (Z.to_nat (pkg.Min (offset filters + limit filters) totalRecords
                      - offset filters)) as [|fuel] eqn:Hfuel.
  - unfold pkg.Min in Hfuel. lia.
  - cbn [UserModel.paginate].
    assert (Hneg : (offset filters <? 0) = true) by (apply Z.ltb_lt; lia).
    now rewrite Hneg.
Qed.

Lemma GetAll_negative_offset_panics_witness :
  fst (UserModel.GetAll "" None (RefPagination.MkFilters 0 10 "username") Sample.flat)
  = Panic "runtime error: index out of range".
Proof.
  apply (GetAll_negative_offset_panics (J := RefJSON.codec) (P := RefPagination.paging)
           Sample.flat "" None (RefPagination.MkFilters 0 10 "username")
           [MkScrubbedUser "alice" true; MkScrubbedUser "bob_1" false;
            MkScrubbedUser "carol" false] 3).
  - reflexivity.
  - run.
  - reflexivity.
  - reflexivity.
  - vm_compute. split; [discriminate | reflexivity].
Defined.

(** Without that completion there is no panic: on the store with the
    record that is not JSON the same page request is answered with the
    error of the decoder. *)
Example GetAll_negative_offset_after_decode_error :
  fst (UserModel.GetAll "" None (RefPagination.MkFilters 0 10 "username") flat_with_garbage)
  = Err RefJSON.syntax_error.
Proof. run. Qed.

Section listing_soundness.

Context `{J : JSON}.

(** A read that answers has read the key space of the client. *)
Lemma Get_answer (key : string) (pre : bool) (c c1 : Client) (resp : RangeResponse) :
  Etcd.Get key pre c = (Ok resp, c1) -> resp = range (keyspace c) key pre.
Proof.
  unfold Etcd.Get, Etcd.transport.
  destruct (faults c) as [|[[e|e]|] rest]; intros H; try discriminate;
    injection H as <- _; reflexivity.
Qed.

Lemma listed_Some (username : string) (admin : option bool) (kv : KeyValue)
    (su : ScrubbedUser) :
  listed username admin kv = Some su ->
  exists user, decoded_by_scan username kv = true /\
               Unmarshal_User (Value kv) = Ok user /\
               passes_admin admin user = true /\ su = Scrub user.
Proof.
  unfold listed. fold (decoded_by_scan username kv).
  destruct (decoded_by_scan username kv); [|discriminate].
  destruct (Unmarshal_User (Value kv)) as [user|e|m]; try discriminate.
  destruct (passes_admin admin user) eqn:Hadmin; [|discriminate].
  intros H. injection H as <-. eauto.
Qed.

End listing_soundness.



(** ** Token validation: decoding errors *)

(** X22.  With the account key and the token key both present,
    [GetUserCheckToken] passes every decoding error on as it is rather than
    answering not-found: the error of the token decoder, the error of
    [strconv.ParseInt] on the expiry, and, for a token that has not expired,
    the error of the account decoder. *)
Theorem GetUserCheckToken_decoding_errors_surface `{J : JSON}
    (c : Client) (now : Z) (username inputToken : string) (et ea : entry) :
  healthy c ->
  keyspace c !! (globals.GetUserPath username +:+ "/tokens") = Some et ->
  keyspace c !! globals.GetUserPath username = Some ea ->
  let answer := fst (UserModel.GetUserCheckToken now username inputToken c) in
  (forall e, Unmarshal_Token (e_value et) = Err e -> answer = Err e) /\
  (forall token e, Unmarshal_Token (e_value et) = Ok token ->
                   strconv.ParseInt (ExpiryUnixTime token) = Err e -> answer = Err e) /\
  (forall token t e, Unmarshal_Token (e_value et) = Ok token ->
                     strconv.ParseInt (ExpiryUnixTime token) = Ok t ->
                     now <= t ->
                     Unmarshal_ScrubbedUser (e_value ea) = Err e -> answer = Err e).
Proof.
  intros Hc Htok Hacc answer. subst answer.
  rewrite GetUserCheckToken_healthy by exact Hc. rewrite Hacc, Htok.
  split; [|split].
  - intros e ->. reflexivity.
  - intros token e -> ->. reflexivity.
  - intros token t e -> -> Hle ->.
    assert (H : (t <? now) = false) by (apply Z.ltb_ge; lia). now rewrite H.
Qed.

Lemma GetUserCheckToken_decoding_errors_surface_witness :
  fst (UserModel.GetUserCheckToken 1700000000 "alice" "s3cr3t-bearer-token"
         with_broken_session) = Err RefJSON.syntax_error.
Proof.
  destruct (GetUserCheckToken_decoding_errors_surface (J := RefJSON.codec)
              with_broken_session 1700000000 "alice" "s3cr3t-bearer-token"
              (Entry "1700000060" 4 4 1)
              (Entry (json.Marshal_User Sample.alice) 2 3 2))
    as (Htoken & _).
  - reflexivity.
  - run.
  - run.
  - apply Htoken. run.
Defined.

(** ** The two creations, and creation undone *)

(** X23.  An authenticated creation that succeeds stores exactly what the
    bootstrap creation of the same record stores: both leave the client in
    the same state, pair for pair and revision for revision. *)
Theorem InsertCheckToken_stores_what_Insert_stores
    (c : Client) (now_txn now_check : Z) (newUser callingUser : User) (su : ScrubbedUser) :
  healthy c ->
  fst (UserModel.InsertCheckToken now_txn now_check newUser callingUser c) = Ok su ->
  snd (UserModel.InsertCheckToken now_txn now_check newUser callingUser c)
  = snd (UserModel.Insert newUser c) /\
  fst (UserModel.Insert newUser c) = Ok tt.
Proof.
  intros Hc Hok.
  destruct (creation_allowed (keyspace c) now_txn newUser callingUser) eqn:Hallowed.
  - rewrite InsertCheckToken_allowed by assumption.
    apply creation_allowed_true in Hallowed as [_ Hnone].
    rewrite Insert_healthy by exact Hc. rewrite Hnone. split; reflexivity.
  - rewrite InsertCheckToken_failed in Hok by assumption.
    now destruct (diagnose_not_Ok _ _ _ _ Hok).
Qed.

Lemma InsertCheckToken_stores_what_Insert_stores_witness :
  snd (UserModel.InsertCheckToken 1700000000 1700000000 Sample.bob Sample.caller
         (Sample.with_token 1700000060))
  = snd (UserModel.Insert Sample.bob (Sample.with_token 1700000060)).
Proof.
  destruct (InsertCheckToken_stores_what_Insert_stores (Sample.with_token 1700000060)
              1700000000 1700000000 Sample.bob Sample.caller
              (MkScrubbedUser "bob_1" false)) as [Hsame _].
  - reflexivity.
  - run.
  - exact Hsame.
Defined.

(** X24.  Creation undone: on a store with no key under the account key of
    a username, [Insert] followed by [Delete] of that username succeeds and
    gives back the key space as it was, pair for pair. *)
Theorem Insert_then_Delete_restores (c : Client) (newUser : User) :
  healthy c ->
  (forall k, String.prefix (globals.GetUserPath (Username newUser)) k = true ->
             keyspace c !! k = None) ->
  fst (UserModel.Delete (Username newUser) (snd (UserModel.Insert newUser c))) = Ok tt /\
  keyspace (snd (UserModel.Delete (Username newUser) (snd (UserModel.Insert newUser c))))
  = keyspace c.
Proof.
  intros Hc Hfree.
  assert (Hnone : keyspace c !! globals.GetUserPath (Username newUser) = None)
    by apply Hfree, prefix_refl.
  rewrite Insert_healthy by exact Hc. rewrite Hnone. cbn [snd].
  rewrite Delete_healthy_run by reflexivity. cbn [keyspace].
  destruct (Count _ =? 0) eqn:Hcount.
  - exfalso. apply Z.eqb_eq in Hcount.
    pose proof (proj1 (range_prefix_empty _ _) Hcount
                  (globals.GetUserPath (Username newUser)) (prefix_refl _)) as Habs.
    destruct (inserted_marker (keyspace c) (Pos.succ (revision c)) newUser) as (e & He & _).
    congruence.
  - split; [reflexivity|]. cbn [snd Etcd.commit keyspace].
    apply map_eq. intros k. rewrite delete_range_lookup.
    destruct (String.prefix (globals.GetUserPath (Username newUser)) k) eqn:Hp.
    + symmetry. now apply Hfree.
    + apply inserted_other; intros ->.
      * now rewrite prefix_refl in Hp.
      * unfold globals.GetUserHashedPasswordPath in Hp. now rewrite prefix_app in Hp.
      * unfold globals.GetUserAdminPath in Hp. now rewrite prefix_app in Hp.
Qed.

Lemma Insert_then_Delete_restores_witness :
  keyspace (snd (UserModel.Delete "bob_1" (snd (UserModel.Insert Sample.bob Sample.with_alice))))
  = keyspace Sample.with_alice.
Proof.
  destruct (Insert_then_Delete_restores Sample.with_alice Sample.bob) as [_ Hks].
  - reflexivity.
  - apply range_prefix_empty. run.
  - exact Hks.
Defined.
